(** * Filters of prompt_toolkit ([prompt_toolkit/filters/base.py])

    A shallow embedding of the filter classes: objects live in a store and
    are named by their address (Python object identity); every method of
    [base.py] is a function on the store.  The per-instance [_and_cache] and
    [_or_cache] dictionaries are finite maps keyed by address, since [Filter]
    defines neither [__eq__] nor [__hash__]. *)

From Stdlib Require Import ZArith.
From stdpp Require Import gmap list strings.


(** ** Values, exceptions, results *)

Abbreviation addr := nat.

Inductive value :=
| VNone
| VBool (b : bool)
| VInt (z : Z)
| VStr (s : string)
| VRef (a : addr).

Inductive exn :=
| ValueError (msg : string)
| AssertionError (msg : string) (got : value)
| TypeError (msg : string)
| AttributeError (name : string)
| RecursionError
| NameError (name : string)
| HostError (msg : string).

Inductive result (A : Type) :=
| Ok (x : A)
| Raise (e : exn).
Arguments Ok {A} x.
Arguments Raise {A} e.

Definition result_map {A B} (f : A → B) (r : result A) : result B :=
  match r with
  | Ok x => Ok (f x)
  | Raise e => Raise e
  end.

(** ** The class table

    One constructor per class statement of [base.py], plus [object]. *)

Inductive pyclass :=
| object
| Filter
| _AndList
| _OrList
| _Invert
| Always
| Never
| Condition
| _Condition.

Inductive method :=
| m__init__
| m__call__
| m__and__
| m__or__
| m__invert__
| m__bool__
| m__repr__
| m_create.

Global Instance pyclass_eq_dec : EqDecision pyclass.
Proof. solve_decision. Defined.

Global Instance method_eq_dec : EqDecision method.
Proof. solve_decision. Defined.

(** [defines k m]: the body of class [k] contains a [def m].  [object]
    brings [__init__] and [__repr__]; it has no [__bool__], no [__len__], no
    [__call__] and no binary operator. *)
Definition defines (k : pyclass) (m : method) : bool :=
  match k, m with
  | object, (m__init__ | m__repr__) => true
  | Filter, (m__init__ | m__call__ | m__and__ | m__or__ | m__invert__ | m__bool__) => true
  | _AndList, (m__init__ | m_create | m__call__ | m__repr__) => true
  | _OrList, (m__init__ | m_create | m__call__ | m__repr__) => true
  | _Invert, (m__init__ | m__call__ | m__repr__) => true
  | Always, (m__call__ | m__or__ | m__invert__) => true
  | Never, (m__call__ | m__and__ | m__invert__) => true
  | Condition, (m__init__ | m__call__) => true
  | _Condition, (m__init__ | m__call__ | m__repr__) => true
  | _, _ => false
  end.

(** Method resolution order: every class has a single base. *)
Definition mro (k : pyclass) : list pyclass :=
  match k with
  | object => [object]
  | Filter => [Filter; object]
  | Condition => [Condition; object]
  | k => [k; Filter; object]
  end.

Definition issubclass (k base : pyclass) : bool := bool_decide (base ∈ mro k).

(** The class whose definition of [m] an instance of [k] runs. *)
Definition resolve (k : pyclass) (m : method) : option pyclass :=
  head (filter (λ c, defines c m = true) (mro k)).

(** ** [list(set(filters))]

    A Python set of filters is hashed by identity and iterated in an order
    the language leaves open.  Only what every order has in common is
    assumed: no duplicates, same members. *)
Class PySet := {
  list_set : list addr → list addr;
  list_set_NoDup : ∀ l, NoDup (list_set l);
  list_set_elem : ∀ l x, x ∈ list_set l ↔ x ∈ l
}.

(** One such order: first occurrences, left to right. *)
Definition first_seen : PySet :=
  {| list_set := remove_dups;
     list_set_NoDup := NoDup_remove_dups;
     list_set_elem := λ l x, elem_of_remove_dups l x |}.

(** ** Host state and callbacks

    The state a callback closes over: the variables of the host
    application, by name. *)
Definition Env := gmap string value.

(** A host callback: a function of no argument that reads the application
    state and returns a boolean, or raises. *)
Definition callback := Env → result bool.


(** ** Objects and the store *)

(** The attributes a subclass of [Filter] adds in its [__init__]. *)
Inductive body :=
| B_AndList (filters : list addr)
| B_OrList (filters : list addr)
| B_Invert (filter : addr)
| B_Always
| B_Never
| B_Condition (func : callback).

Inductive obj :=
| FilterObj (b : body) (_and_cache _or_cache : gmap addr addr)
            (_invert_result : option addr)
| ConditionObj (func : callback).

Abbreviation heap := (list obj).

(** What an evaluation leaves behind: the leaves whose callback ran, in
    order. *)
Abbreviation trace := (list addr).

Definition class_of_body (b : body) : pyclass :=
  match b with
  | B_AndList _ => _AndList
  | B_OrList _ => _OrList
  | B_Invert _ => _Invert
  | B_Always => Always
  | B_Never => Never
  | B_Condition _ => _Condition
  end.

Definition class_of (o : obj) : pyclass :=
  match o with
  | FilterObj b _ _ _ => class_of_body b
  | ConditionObj _ => Condition
  end.

Definition type_at (h : heap) (a : addr) : option pyclass := class_of <$> h !! a.

(** [isinstance(v, k)] *)
Definition isinstance (h : heap) (v : value) (k : pyclass) : bool :=
  match v with
  | VRef a =>
      match type_at h a with
      | Some c => issubclass c k
      | None => false
      end
  | _ => false
  end.

Definition and_cache_of (h : heap) (a : addr) : option (gmap addr addr) :=
  match h !! a with
  | Some (FilterObj _ ac _ _) => Some ac
  | _ => None
  end.

Definition or_cache_of (h : heap) (a : addr) : option (gmap addr addr) :=
  match h !! a with
  | Some (FilterObj _ _ oc _) => Some oc
  | _ => None
  end.

Definition invert_result_of (h : heap) (a : addr) : option (option addr) :=
  match h !! a with
  | Some (FilterObj _ _ _ ir) => Some ir
  | _ => None
  end.

Definition body_of (h : heap) (a : addr) : option body :=
  match h !! a with
  | Some (FilterObj b _ _ _) => Some b
  | _ => None
  end.

(** [self._and_cache[k] = r] *)
Definition set_and_cache (k r : addr) (o : obj) : obj :=
  match o with
  | FilterObj b ac oc ir => FilterObj b (<[k := r]> ac) oc ir
  | o => o
  end.

(** [self._or_cache[k] = r] *)
Definition set_or_cache (k r : addr) (o : obj) : obj :=
  match o with
  | FilterObj b ac oc ir => FilterObj b ac (<[k := r]> oc) ir
  | o => o
  end.

(** [self._invert_result = r] *)
Definition set_invert_result (r : addr) (o : obj) : obj :=
  match o with
  | FilterObj b ac oc _ => FilterObj b ac oc (Some r)
  | o => o
  end.

(** A fresh object gets the next address. *)
Definition alloc (o : obj) (h : heap) : heap * addr := (h ++ [o], List.length h).

(** [Filter.__init__]: two empty caches, no negation yet. *)
Definition Filter__init__ (b : body) : obj := FilterObj b ∅ ∅ None.

(** ** Methods

    A method takes the store and returns the store with its result. *)
Definition M (A : Type) := heap → heap * result A.

Section Filters.

Context {PS : PySet}.

(** [_AndList.create(filters)] *)
Definition _AndList_create (filters : list addr) (h : heap) : heap * addr :=
  match list_set filters with
  | [] => alloc (Filter__init__ B_Always) h
  | [x] => (h, x)
  | unique_filters => alloc (Filter__init__ (B_AndList unique_filters)) h
  end.

(** [_OrList.create(filters)] *)
Definition _OrList_create (filters : list addr) (h : heap) : heap * addr :=
  match list_set filters with
  | [] => alloc (Filter__init__ B_Never) h
  | [x] => (h, x)
  | unique_filters => alloc (Filter__init__ (B_OrList unique_filters)) h
  end.

Definition expecting_filter : string := "Expecting filter, got".

(** [Filter.__and__(self, other)] *)
Definition Filter__and__ (self : addr) (other : value) : M value := λ h,
  if negb (isinstance h other Filter)
  then (h, Raise (AssertionError expecting_filter other))
  else if isinstance h other Always then (h, Ok (VRef self))
  else if isinstance h other Never then (h, Ok other)
  else
    match other, and_cache_of h self with
    | VRef o, Some cache =>
        match cache !! o with
        | Some r => (h, Ok (VRef r))
        | None =>
            let '(h1, r) := _AndList_create [self; o] h in
            (alter (set_and_cache o r) self h1, Ok (VRef r))
        end
    | _, _ => (h, Raise (AttributeError "_and_cache"))
    end.

(** [Filter.__or__(self, other)] *)
Definition Filter__or__ (self : addr) (other : value) : M value := λ h,
  if negb (isinstance h other Filter)
  then (h, Raise (AssertionError expecting_filter other))
  else if isinstance h other Always then (h, Ok other)
  else if isinstance h other Never then (h, Ok (VRef self))
  else
    match other, or_cache_of h self with
    | VRef o, Some cache =>
        match cache !! o with
        | Some r => (h, Ok (VRef r))
        | None =>
            let '(h1, r) := _OrList_create [self; o] h in
            (alter (set_or_cache o r) self h1, Ok (VRef r))
        end
    | _, _ => (h, Raise (AttributeError "_or_cache"))
    end.

(** [Filter.__invert__(self)] *)
Definition Filter__invert__ (self : addr) : M value := λ h,
  match invert_result_of h self with
  | Some None =>
      let '(h1, r) := alloc (Filter__init__ (B_Invert self)) h in
      (alter (set_invert_result r) self h1, Ok (VRef r))
  | Some (Some r) => (h, Ok (VRef r))
  | None => (h, Raise (AttributeError "_invert_result"))
  end.

Definition ambiguous : string :=
  "The truth value of a Filter is ambiguous. Instead, call it as a function.".

(** [Filter.__bool__(self)] *)
Definition Filter__bool__ (self : addr) : result bool :=
  Raise (ValueError ambiguous).

(** [Always.__or__(self, other)] *)
Definition Always__or__ (self : addr) (other : value) : M value := λ h,
  (h, Ok (VRef self)).

(** [Always.__invert__(self)]: [Never()] *)
Definition Always__invert__ (self : addr) : M value := λ h,
  let '(h1, r) := alloc (Filter__init__ B_Never) h in (h1, Ok (VRef r)).

(** [Never.__and__(self, other)] *)
Definition Never__and__ (self : addr) (other : value) : M value := λ h,
  (h, Ok (VRef self)).

(** [Never.__invert__(self)]: [Always()] *)
Definition Never__invert__ (self : addr) : M value := λ h,
  let '(h1, r) := alloc (Filter__init__ B_Always) h in (h1, Ok (VRef r)).

(** [Condition(func)]: [Condition.__init__] stores the callback; the
    instance is no [Filter] and has no cache. *)
Definition Condition__init__ (func : callback) : M value := λ h,
  let '(h1, r) := alloc (ConditionObj func) h in (h1, Ok (VRef r)).

Definition no_arguments : string := "Condition does not accept any arguments".

(** [Condition.__call__(self, *args)]: a new [_Condition] instance that
    holds [self.func]. *)
Definition Condition__call__ (self : addr) (args : list value) : M value := λ h,
  match args with
  | _ :: _ => (h, Raise (ValueError no_arguments))
  | [] =>
      match h !! self with
      | Some (ConditionObj func) =>
          let '(h1, r) := alloc (Filter__init__ (B_Condition func)) h in
          (h1, Ok (VRef r))
      | _ => (h, Raise (AttributeError "func"))
      end
  end.

(** ** Operators: dispatch through the class table *)

Definition unsupported (op : string) : exn :=
  TypeError ("unsupported operand type(s) for " ++ op).

(** [self & other].  No class of the module defines [__rand__], so an
    operand without [__and__] ends in [TypeError]. *)
Definition py_and (self : addr) (other : value) : M value := λ h,
  match type_at h self with
  | Some k =>
      match resolve k m__and__ with
      | Some Never => Never__and__ self other h
      | Some Filter => Filter__and__ self other h
      | _ => (h, Raise (unsupported "&"))
      end
  | None => (h, Raise (unsupported "&"))
  end.

(** [self | other] *)
Definition py_or (self : addr) (other : value) : M value := λ h,
  match type_at h self with
  | Some k =>
      match resolve k m__or__ with
      | Some Always => Always__or__ self other h
      | Some Filter => Filter__or__ self other h
      | _ => (h, Raise (unsupported "|"))
      end
  | None => (h, Raise (unsupported "|"))
  end.

(** [~self] *)
Definition py_invert (self : addr) : M value := λ h,
  match type_at h self with
  | Some k =>
      match resolve k m__invert__ with
      | Some Always => Always__invert__ self h
      | Some Never => Never__invert__ self h
      | Some Filter => Filter__invert__ self h
      | _ => (h, Raise (TypeError "bad operand type for unary ~"))
      end
  | None => (h, Raise (TypeError "bad operand type for unary ~"))
  end.

(** [bool(v)], the test an [if v:] performs.  An object whose class has
    neither [__bool__] nor [__len__] is true. *)
Definition py_bool (h : heap) (v : value) : result bool :=
  match v with
  | VNone => Ok false
  | VBool b => Ok b
  | VInt z => Ok (negb (Z.eqb z 0))
  | VStr s => Ok (negb (String.eqb s ""))
  | VRef a =>
      match type_at h a with
      | Some k =>
          match resolve k m__bool__ with
          | Some Filter => Filter__bool__ a
          | _ => Ok true
          end
      | None => Raise (TypeError "no such object")
      end
  end.

(** ** Evaluation: [__call__] of the filter classes

    Evaluation reads the store and the application state and changes
    neither.  The trace lists, in order, the leaves whose callback ran. *)

(** [all(f() for f in filters)]: stops at the first false child; a child
    that raises ends the loop with its exception. *)
Fixpoint py_all (call : addr → trace * result bool) (filters : list addr)
  : trace * result bool :=
  match filters with
  | [] => ([], Ok true)
  | f :: rest =>
      match call f with
      | (t, Ok true) => let '(t', r) := py_all call rest in (t ++ t', r)
      | (t, r) => (t, r)
      end
  end.

(** [any(f() for f in filters)]: stops at the first true child. *)
Fixpoint py_any (call : addr → trace * result bool) (filters : list addr)
  : trace * result bool :=
  match filters with
  | [] => ([], Ok false)
  | f :: rest =>
      match call f with
      | (t, Ok false) => let '(t', r) := py_any call rest in (t ++ t', r)
      | (t, r) => (t, r)
      end
  end.

(** [depth] bounds the nesting of calls, as the interpreter's recursion
    limit does. *)
Fixpoint eval (depth : nat) (h : heap) (e : Env) (self : addr)
  : trace * result bool :=
  match depth with
  | 0 => ([], Raise RecursionError)
  | S d =>
      match body_of h self with
      | Some (B_AndList filters) => py_all (eval d h e) filters
      | Some (B_OrList filters) => py_any (eval d h e) filters
      | Some (B_Invert filter) =>
          let '(t, r) := eval d h e filter in (t, result_map negb r)
      | Some B_Always => ([], Ok true)
      | Some B_Never => ([], Ok false)
      | Some (B_Condition func) => ([self], func e)
      | None => ([], Raise (TypeError "object is not a Filter"))
      end
  end.

(** The children of a node were built before it, so a depth above the
    node's address is never exhausted (lemma [eval_depth] below). *)
Definition Filter__call__ (h : heap) (e : Env) (self : addr)
  : trace * result bool :=
  eval (S self) h e self.

(** [self()] on any object: a filter is evaluated, a [Condition] builds a
    leaf. *)
Definition py_call (self : addr) (e : Env) : heap → heap * (trace * result value) :=
  λ h,
  match h !! self with
  | Some (ConditionObj _) =>
      let '(h1, r) := Condition__call__ self [] h in (h1, ([], r))
  | Some (FilterObj _ _ _ _) =>
      let '(t, r) := Filter__call__ h e self in (h, (t, result_map VBool r))
  | None => (h, ([], Raise (TypeError "no such object")))
  end.

(** ** Programs over the store

    What client code can do with the module: build the constants, wrap a
    callback, call a wrapper, combine and negate.  (Evaluating a filter
    leaves the store as it is and needs no step of its own.) *)
Inductive op :=
| Op_Always
| Op_Never
| Op_Condition (func : callback)
| Op_call (self : addr) (args : list value)
| Op_and (self : addr) (other : value)
| Op_or (self : addr) (other : value)
| Op_invert (self : addr).

(** [Always()] *)
Definition Always_new : M value := λ h,
  let '(h1, r) := alloc (Filter__init__ B_Always) h in (h1, Ok (VRef r)).

(** [Never()] *)
Definition Never_new : M value := λ h,
  let '(h1, r) := alloc (Filter__init__ B_Never) h in (h1, Ok (VRef r)).

Definition exec (o : op) : M value :=
  match o with
  | Op_Always => Always_new
  | Op_Never => Never_new
  | Op_Condition func => Condition__init__ func
  | Op_call self args => Condition__call__ self args
  | Op_and self other => py_and self other
  | Op_or self other => py_or self other
  | Op_invert self => py_invert self
  end.

Definition run (ops : list op) (h : heap) : heap :=
  foldl (λ h o, (exec o h).1) h ops.

Inductive reachable : heap → Prop :=
| reachable_init : reachable []
| reachable_step h o : reachable h → reachable (exec o h).1.

(** ** Store invariant *)

Definition children (b : body) : list addr :=
  match b with
  | B_AndList filters | B_OrList filters => filters
  | B_Invert filter => [filter]
  | _ => []
  end.

Record wf (h : heap) : Prop := {
  wf_children : ∀ a b, body_of h a = Some b → Forall (λ c, c < a) (children b);
  wf_and_self : ∀ a ac r, and_cache_of h a = Some ac → ac !! a = Some r → r = a;
  wf_or_self : ∀ a oc r, or_cache_of h a = Some oc → oc !! a = Some r → r = a
}.

Definition is_filter (h : heap) (a : addr) : Prop :=
  isinstance h (VRef a) Filter = true.

Definition is_constant (h : heap) (a : addr) : bool :=
  isinstance h (VRef a) Always || isinstance h (VRef a) Never.

(** Objects keep their class: the store only grows, and an attribute
    update never changes what an object is. *)
Definition keeps_classes (h h1 : heap) : Prop :=
  ∀ x k, type_at h x = Some k → type_at h1 x = Some k.

(** What a later store retains of an earlier one: the class of every
    object, a negation once stored, the entries of both caches. *)
Record retains (h h1 : heap) : Prop := {
  retains_class : keeps_classes h h1;
  retains_invert : ∀ a r,
    invert_result_of h a = Some (Some r) → invert_result_of h1 a = Some (Some r);
  retains_and : ∀ a c r,
    and_cache_of h a ≫= (.!! c) = Some r → and_cache_of h1 a ≫= (.!! c) = Some r;
  retains_or : ∀ a c r,
    or_cache_of h a ≫= (.!! c) = Some r → or_cache_of h1 a ≫= (.!! c) = Some r
}.

(** A new object may only point at objects that exist, and starts with
    empty caches. *)
Definition fresh_ok (h : heap) (o : obj) : Prop :=
  match o with
  | FilterObj b ac oc _ =>
      Forall (λ c, c < List.length h) (children b) ∧ ac = ∅ ∧ oc = ∅
  | ConditionObj _ => True
  end.

End Filters.

(** ** The scenario of the documentation

    [Condition(lambda: mode == "insert")] and
    [Condition(lambda: not readonly)] over the host variables [mode] and
    [readonly]. *)

Global Instance value_eq_dec : EqDecision value.
Proof. solve_decision. Defined.

Definition mode_is_insert : callback := λ e,
  match e !! "mode" with
  | Some v => Ok (bool_decide (v = VStr "insert"))
  | None => Raise (NameError "mode")
  end.

Definition not_readonly : callback := λ e,
  match e !! "readonly" with
  | Some v => result_map negb (py_bool [] v)
  | None => Raise (NameError "readonly")
  end.

Definition insert_writable : Env :=
  <["mode" := VStr "insert"]> (<["readonly" := VBool false]> ∅).

(** Leaves used in the examples. *)
Definition const_false : callback := λ _, Ok false.
Definition const_true : callback := λ _, Ok true.
Definition raising : callback := λ _, Raise (HostError "boom").

(** A store with one object of every kind, built by the module's own
    operations:
    [a = Always()] (0), [n = Never()] (1),
    [f = Condition(const_false)()] (wrapper 2, leaf 3),
    [r = Condition(raising)()] (wrapper 4, leaf 5),
    [t = Condition(const_true)()] (wrapper 6, leaf 7),
    [f & r] (8), [t | r] (9), [~f] (10), [~a] twice (11, 12),
    [~n] (13). *)
Definition sample_ops : list op :=
  [Op_Always; Op_Never;
   Op_Condition const_false; Op_call 2 [];
   Op_Condition raising; Op_call 4 [];
   Op_Condition const_true; Op_call 6 [];
   Op_and 3 (VRef 5); Op_or 7 (VRef 5); Op_invert 3;
   Op_invert 0; Op_invert 0; Op_invert 1].

Definition sample_heap : heap := run (PS := first_seen) sample_ops [].

(** [f = Condition(mode_is_insert)() & Condition(not_readonly)()]: wrappers
    at 0 and 2, leaves at 1 and 3, [f] at 4. *)
Definition scenario_heap : heap :=
  run (PS := first_seen)
    [Op_Condition mode_is_insert; Op_call 0 [];
     Op_Condition not_readonly; Op_call 2 []; Op_and 1 (VRef 3)] [].


(** ** More about reachable stores *)

(** Another iteration order of a set: last occurrences first. *)
Definition last_seen : PySet :=
  {| list_set := λ l, reverse (remove_dups l);
     list_set_NoDup := λ l,
       proj2 (NoDup_Permutation_proper _ _ (reverse_Permutation (remove_dups l)))
             (NoDup_remove_dups l);
     list_set_elem := λ l x,
       iff_trans (elem_of_reverse x (remove_dups l)) (elem_of_remove_dups l x) |}.

(** The attributes set by a subclass's [__init__] are never assigned
    again. *)
Definition keeps_bodies (h h1 : heap) : Prop :=
  ∀ a b, body_of h a = Some b → body_of h1 a = Some b.

(** What a cache entry [r] under key [c] of filter [a] can be: [a] itself
    when [c] is [a], else a combinator node over [a] and [c]. *)
Definition pair_node (h : heap) (mk : list addr → body) (a c r : addr) : Prop :=
  (c = a ∧ r = a) ∨
  (c ≠ a ∧ ∃ fs, body_of h r = Some (mk fs) ∧ fs ≡ₚ [a; c]).

Record sound (h : heap) : Prop := {
  sound_children : ∀ a b,
    body_of h a = Some b → Forall (λ c, is_Some (body_of h c)) (children b);
  sound_and : ∀ a ac c r,
    and_cache_of h a = Some ac → ac !! c = Some r → pair_node h B_AndList a c r;
  sound_or : ∀ a oc c r,
    or_cache_of h a = Some oc → oc !! c = Some r → pair_node h B_OrList a c r;
  sound_invert : ∀ a r,
    invert_result_of h a = Some (Some r) → body_of h r = Some (B_Invert a)
}.

(** A new object as the constructors make it: children that are
    filters, empty caches, no negation. *)
Definition fresh_sound (h : heap) (o : obj) : Prop :=
  match o with
  | FilterObj b ac oc ir =>
      Forall (λ c, is_Some (body_of h c)) (children b) ∧ ac = ∅ ∧ oc = ∅ ∧ ir = None
  | ConditionObj _ => True
  end.

(** ** [str.replace] and the quoting functions of [SystemCompleter]
    ([prompt_toolkit/contrib/completers/system.py]) *)

Definition dquote : Ascii.ascii := Ascii.ascii_of_nat 34.
Definition squote : Ascii.ascii := Ascii.ascii_of_nat 39.
Definition backslash : Ascii.ascii := Ascii.ascii_of_nat 92.

Definition str1 (c : Ascii.ascii) : string := String c EmptyString.
Definition str2 (c d : Ascii.ascii) : string := String c (String d EmptyString).

(** Leftmost occurrences of a non-empty [old], not overlapping: after a
    match the rest of the matched text is skipped. *)
Fixpoint replace_from (old new : string) (skip : nat) (s : string) : string :=
  match s with
  | EmptyString => EmptyString
  | String c rest =>
      match skip with
      | S k => replace_from old new k rest
      | 0 =>
          if String.prefix old s
          then String.append new (replace_from old new (String.length old - 1) rest)
          else String c (replace_from old new 0 rest)
      end
  end.

(** With an empty [old], [new] goes before every character and at the
    end. *)
Fixpoint replace_empty (new : string) (s : string) : string :=
  match s with
  | EmptyString => new
  | String c rest => String.append new (String c (replace_empty new rest))
  end.

(** [s.replace(old, new)] *)
Definition str_replace (s old new : string) : string :=
  match old with
  | EmptyString => replace_empty new s
  | _ => replace_from old new 0 s
  end.

(** [escape_funcs] and [unescape_funcs] of the grammar. *)
Definition escape_double_quoted_filename (s : string) : string :=
  str_replace s (str1 dquote) (str2 backslash dquote).
Definition escape_single_quoted_filename (s : string) : string :=
  str_replace s (str1 squote) (str2 backslash squote).
Definition unescape_double_quoted_filename (s : string) : string :=
  str_replace s (str2 backslash dquote) (str1 dquote).
Definition unescape_single_quoted_filename (s : string) : string :=
  str_replace s (str2 backslash squote) (str1 squote).

(** ** [__repr__]

    [Always] and [Never] inherit [object.__repr__], which prints the class
    and the address of the instance; a leaf prints the [repr] of its
    callable.  Both are left open. *)



Section Repr.

Variable object_repr : addr → string.
Variable func_repr : callback → string.



End Repr.

(** [(a & b) | c] and [a & (b | c)], with [first_seen] and [a] false, [b]
    and [c] true: leaves at 1, 3, 5;
    [b | c] at 6, [a & (b | c)] at 7, [a & b] at 8, [(a & b) | c] at 9. *)
Definition grouping_heap : heap :=
  run (PS := first_seen)
    [Op_Condition const_false; Op_call 0 [];
     Op_Condition const_true; Op_call 2 [];
     Op_Condition const_true; Op_call 4 [];
     Op_or 3 (VRef 5); Op_and 1 (VRef 6);
     Op_and 1 (VRef 3); Op_or 8 (VRef 5)] [].

(** * Facts *)

Section Facts.

Context {PS : PySet}.
Implicit Types (h : heap) (a self : addr) (o : obj) (b : body) (k : pyclass).

(** ** The class table *)

Lemma resolve_and_Filter k :
  issubclass k Filter = true → k ≠ Never → resolve k m__and__ = Some Filter.
Proof. destruct k; vm_compute; congruence. Qed.

Lemma resolve_or_Filter k :
  issubclass k Filter = true → k ≠ Always → resolve k m__or__ = Some Filter.
Proof. destruct k; vm_compute; congruence. Qed.

Lemma resolve_invert_Filter k :
  issubclass k Filter = true → k ≠ Always → k ≠ Never →
  resolve k m__invert__ = Some Filter.
Proof. destruct k; vm_compute; congruence. Qed.

Lemma resolve_bool_Filter k :
  issubclass k Filter = true → resolve k m__bool__ = Some Filter.
Proof. destruct k; vm_compute; congruence. Qed.

Lemma class_of_body_Filter b : issubclass (class_of_body b) Filter = true.
Proof. by destruct b. Qed.

(** ** Reading the store *)

Lemma is_filter_lookup h a :
  is_filter h a ↔ ∃ b ac oc ir, h !! a = Some (FilterObj b ac oc ir).
Proof.
  unfold is_filter, isinstance, type_at. split.
  - destruct (h !! a) as [[b ac oc ir|f]|]; simpl; [eauto | done | done].
  - intros (b & ac & oc & ir & ->). simpl. apply class_of_body_Filter.
Qed.

Lemma isinstance_Always h a :
  isinstance h (VRef a) Always = true ↔ body_of h a = Some B_Always.
Proof.
  unfold isinstance, type_at, body_of.
  destruct (h !! a) as [[[] ac oc ir|f]|]; simpl; split; done.
Qed.

Lemma isinstance_Never h a :
  isinstance h (VRef a) Never = true ↔ body_of h a = Some B_Never.
Proof.
  unfold isinstance, type_at, body_of.
  destruct (h !! a) as [[[] ac oc ir|f]|]; simpl; split; done.
Qed.

Lemma isinstance_Filter_ref h v :
  isinstance h v Filter = true → ∃ a, v = VRef a ∧ is_filter h a.
Proof. destruct v as [| | | |a]; try done. intros Ha. by exists a. Qed.

Lemma lookup_lt_heap h a o : h !! a = Some o → a < List.length h.
Proof. apply lookup_lt_Some. Qed.

(** ** [list(set([a, b]))] *)

Lemma list_set_same a : list_set [a; a] = [a].
Proof.
  apply Permutation_singleton_r, NoDup_Permutation.
  - apply list_set_NoDup.
  - apply NoDup_singleton.
  - intros x. rewrite list_set_elem, !elem_of_cons, elem_of_nil. tauto.
Qed.

Lemma list_set_pair (a c : addr) :
  a ≠ c → list_set [a; c] = [a; c] ∨ list_set [a; c] = [c; a].
Proof.
  intros Hab. apply Permutation_length_2_inv, NoDup_Permutation.
  - apply NoDup_cons. split; [by rewrite list_elem_of_singleton | apply NoDup_singleton].
  - apply list_set_NoDup.
  - intros x. by rewrite list_set_elem.
Qed.

Lemma _AndList_create_same a h : _AndList_create [a; a] h = (h, a).
Proof. unfold _AndList_create. by rewrite list_set_same. Qed.

Lemma _OrList_create_same a h : _OrList_create [a; a] h = (h, a).
Proof. unfold _OrList_create. by rewrite list_set_same. Qed.

Lemma _AndList_create_pair (a c : addr) h :
  a ≠ c →
  _AndList_create [a; c] h = alloc (Filter__init__ (B_AndList (list_set [a; c]))) h.
Proof.
  intros Hab. unfold _AndList_create.
  by destruct (list_set_pair a c Hab) as [-> | ->].
Qed.

Lemma _OrList_create_pair (a c : addr) h :
  a ≠ c →
  _OrList_create [a; c] h = alloc (Filter__init__ (B_OrList (list_set [a; c]))) h.
Proof.
  intros Hab. unfold _OrList_create.
  by destruct (list_set_pair a c Hab) as [-> | ->].
Qed.

(** ** Allocation and attribute updates *)

Lemma lookup_alloc_new o h : (h ++ [o]) !! List.length h = Some o.
Proof. by apply list_lookup_middle. Qed.

Lemma lookup_alloc_old o h a x : h !! a = Some x → (h ++ [o]) !! a = Some x.
Proof. apply lookup_app_l_Some. Qed.

Lemma length_alloc o h : List.length (h ++ [o]) = S (List.length h).
Proof. rewrite length_app. simpl. lia. Qed.

Lemma type_at_alloc_old o h a k : type_at h a = Some k → type_at (h ++ [o]) a = Some k.
Proof.
  unfold type_at. destruct (h !! a) as [x|] eqn:Hx; [|done].
  by rewrite (lookup_alloc_old o h a x Hx).
Qed.

Lemma class_of_set_and_cache x r o : class_of (set_and_cache x r o) = class_of o.
Proof. by destruct o. Qed.

Lemma class_of_set_or_cache x r o : class_of (set_or_cache x r o) = class_of o.
Proof. by destruct o. Qed.

Lemma class_of_set_invert_result r o : class_of (set_invert_result r o) = class_of o.
Proof. by destruct o. Qed.

Lemma type_at_alter (f : obj → obj) self h a :
  (∀ o, class_of (f o) = class_of o) → type_at (alter f self h) a = type_at h a.
Proof.
  intros Hf. unfold type_at. destruct (decide (self = a)) as [->|Hne].
  - rewrite list_lookup_alter_eq. destruct (h !! a); simpl; [f_equal; apply Hf | done].
  - by rewrite list_lookup_alter_ne.
Qed.

Lemma isinstance_alter (f : obj → obj) self h v k :
  (∀ o, class_of (f o) = class_of o) →
  isinstance (alter f self h) v k = isinstance h v k.
Proof. intros Hf. destruct v; try done. simpl. by rewrite type_at_alter. Qed.

Lemma isinstance_alloc_old o h v k :
  isinstance h v k = true → isinstance (h ++ [o]) v k = true.
Proof.
  destruct v as [| | | |a]; try done. simpl.
  destruct (type_at h a) as [c|] eqn:Hc; [|done].
  by rewrite (type_at_alloc_old o h a c Hc).
Qed.

(** An object that exists keeps its class when the store grows, so a
    negative [isinstance] test on it stays negative. *)
Lemma isinstance_alloc_false o h a k :
  a < List.length h → isinstance (h ++ [o]) (VRef a) k = isinstance h (VRef a) k.
Proof.
  intros Ha. simpl. unfold type_at. by rewrite lookup_app_l.
Qed.

(** ** Leaves *)

Lemma Filter__call__leaf h e a func :
  body_of h a = Some (B_Condition func) → Filter__call__ h e a = ([a], func e).
Proof. intros Hb. unfold Filter__call__. simpl. by rewrite Hb. Qed.

(** C4: truth-testing a [Filter] instance raises [ValueError] with the
    message of [Filter.__bool__], whatever the class of the instance
    ([Always], [Never], [_Condition] leaf, [_AndList], [_OrList],
    [_Invert]): it never yields [True] or [False]. *)
Theorem C4_truth_test_raises h a b ac oc ir :
  h !! a = Some (FilterObj b ac oc ir) →
  py_bool h (VRef a) = Raise (ValueError ambiguous).
Proof.
  intros Ha. unfold py_bool, type_at. rewrite Ha. simpl.
  by rewrite (resolve_bool_Filter _ (class_of_body_Filter b)).
Qed.

(** C10: the object [Condition(func)] is an instance of [Condition], which
    is no subclass of [Filter] and finds no [__bool__] along its resolution
    order; truth-testing it raises nothing and yields [True]. *)
Theorem C10_wrapper_is_truthy (func : callback) h :
  let w := List.length h in
  ∃ h1,
    Condition__init__ func h = (h1, Ok (VRef w)) ∧
    type_at h1 w = Some Condition ∧
    issubclass Condition Filter = false ∧
    isinstance h1 (VRef w) Filter = false ∧
    resolve Condition m__bool__ = None ∧
    py_bool h1 (VRef w) = Ok true.
Proof.
  intros w. exists (h ++ [ConditionObj func]).
  assert (type_at (h ++ [ConditionObj func]) w = Some Condition) as Hw.
  { unfold type_at, w. by rewrite lookup_alloc_new. }
  repeat split; try done.
  - simpl. by rewrite Hw.
  - simpl. by rewrite Hw.
Qed.

(** C1 (what the code does): [Condition(func)] is a [Condition] instance
    and no [Filter]; calling it runs no callback and returns a new
    [_Condition] object rather than a boolean; [&] on it raises [TypeError].
    Only the [_Condition] object it returns is the filter that invokes
    [func] and hands its result back unchanged. *)
Theorem C1_Condition_returns_factory (func : callback) (e : Env) h :
  let w := List.length h in
  ∃ h1 h2,
    Condition__init__ func h = (h1, Ok (VRef w)) ∧
    isinstance h1 (VRef w) Filter = false ∧
    py_call w e h1 = (h2, ([], Ok (VRef (S w)))) ∧
    body_of h2 (S w) = Some (B_Condition func) ∧
    Filter__call__ h2 e (S w) = ([S w], func e) ∧
    (∀ other, py_and w other h1 = (h1, Raise (unsupported "&"))).
Proof.
  intros w. subst w.
  exists (h ++ [ConditionObj func]),
    ((h ++ [ConditionObj func]) ++ [Filter__init__ (B_Condition func)]).
  assert ((h ++ [ConditionObj func]) !! List.length h = Some (ConditionObj func)) as Hw
    by apply lookup_alloc_new.
  assert (body_of ((h ++ [ConditionObj func]) ++ [Filter__init__ (B_Condition func)])
            (S (List.length h)) = Some (B_Condition func)) as Hleaf.
  { unfold body_of. rewrite <- (length_alloc (ConditionObj func) h).
    by rewrite lookup_alloc_new. }
  split; [done|]. split; [simpl; unfold type_at; by rewrite Hw|].
  split.
  { unfold py_call, Condition__call__. rewrite Hw. simpl.
    by rewrite length_alloc. }
  split; [done|]. split; [by apply Filter__call__leaf|].
  intros other. unfold py_and, type_at. by rewrite Hw.
Qed.

(** ** Operators on filters *)

Lemma py_and_Filter h self other k :
  type_at h self = Some k → issubclass k Filter = true → k ≠ Never →
  py_and self other h = Filter__and__ self other h.
Proof.
  intros Hk Hsub Hne. unfold py_and. rewrite Hk.
  by rewrite (resolve_and_Filter k Hsub Hne).
Qed.

Lemma py_or_Filter h self other k :
  type_at h self = Some k → issubclass k Filter = true → k ≠ Always →
  py_or self other h = Filter__or__ self other h.
Proof.
  intros Hk Hsub Hne. unfold py_or. rewrite Hk.
  by rewrite (resolve_or_Filter k Hsub Hne).
Qed.

Lemma py_and_Never h self other :
  type_at h self = Some Never → py_and self other h = (h, Ok (VRef self)).
Proof. intros Hk. unfold py_and. by rewrite Hk. Qed.

Lemma py_or_Always h self other :
  type_at h self = Some Always → py_or self other h = (h, Ok (VRef self)).
Proof. intros Hk. unfold py_or. by rewrite Hk. Qed.



(** C5 (the failing inputs): [Always.__or__] and [Never.__and__] return
    [self] without the [isinstance] assertion of the base class, so
    [Always() | 5] and [Never() & 5] return a filter instead of raising,
    while [Always() & 5] and [Never() | 5], which run the base methods,
    raise [AssertionError]. *)
Theorem C5_constant_overrides_skip_assert :
  let ha := run [Op_Always] [] in
  let hn := run [Op_Never] [] in
  isinstance ha (VInt 5) Filter = false ∧
  py_or 0 (VInt 5) ha = (ha, Ok (VRef 0)) ∧
  py_and 0 (VInt 5) hn = (hn, Ok (VRef 0)) ∧
  py_and 0 (VInt 5) ha = (ha, Raise (AssertionError expecting_filter (VInt 5))) ∧
  py_or 0 (VInt 5) hn = (hn, Raise (AssertionError expecting_filter (VInt 5))).
Proof. repeat split. Qed.

(** C2 (the failing inputs): [Always] has no [__and__] and [Never] no
    [__or__] of its own, so [Always() & x] and [Never() | x] with [x] a
    leaf run the base methods, which allocate an [_AndList] (an [_OrList])
    over both operands and return that node, not [x]. *)
Theorem C2_left_constant_builds_node (func : callback) :
  let ha := run [Op_Always; Op_Condition func; Op_call 1 []] [] in
  let hn := run [Op_Never; Op_Condition func; Op_call 1 []] [] in
  body_of ha 2 = Some (B_Condition func) ∧
  (∃ h', py_and 0 (VRef 2) ha = (h', Ok (VRef 3)) ∧
         body_of h' 3 = Some (B_AndList (list_set [0; 2]))) ∧
  (∃ h', py_or 0 (VRef 2) hn = (h', Ok (VRef 3)) ∧
         body_of h' 3 = Some (B_OrList (list_set [0; 2]))).
Proof.
  intros ha hn. split; [done|]. split.
  - eexists. split.
    + unfold py_and, ha. simpl. unfold Filter__and__. simpl.
      rewrite _AndList_create_pair by done. simpl. reflexivity.
    + reflexivity.
  - eexists. split.
    + unfold py_or, hn. simpl. unfold Filter__or__. simpl.
      rewrite _OrList_create_pair by done. simpl. reflexivity.
    + reflexivity.
Qed.

Lemma body_of_lookup h a b :
  body_of h a = Some b → ∃ ac oc ir, h !! a = Some (FilterObj b ac oc ir).
Proof.
  unfold body_of. destruct (h !! a) as [[b' ac oc ir|f]|]; [|done|done].
  intros [= ->]. eauto.
Qed.

Lemma is_constant_false h a :
  is_constant h a = false →
  isinstance h (VRef a) Always = false ∧ isinstance h (VRef a) Never = false.
Proof. unfold is_constant. by intros [? ?]%orb_false_iff. Qed.

(** ** Negation *)

Lemma py_invert_Filter h self b ac oc ir :
  h !! self = Some (FilterObj b ac oc ir) → is_constant h self = false →
  py_invert self h = Filter__invert__ self h.
Proof.
  intros Hs Hc. apply is_constant_false in Hc as [Ha Hn].
  unfold py_invert. simpl in Ha, Hn. unfold type_at in *. rewrite Hs in *.
  simpl in *. by destruct b.
Qed.

Lemma invert_result_of_set h self r b ac oc ir :
  h !! self = Some (FilterObj b ac oc ir) →
  alter (set_invert_result r) self h !! self = Some (FilterObj b ac oc (Some r)).
Proof. intros Hs. rewrite list_lookup_alter_eq. by rewrite Hs. Qed.

(** ** Constants on the right *)

(** C6 (as the code has it): a constant right operand is absorbed without
    touching the store.  [x & Always] and [x | Never] return [x];
    [x & Never] returns the [Never] operand and [x | Always] the [Always]
    operand, except when [x] is itself an instance of that same constant
    class, where the override returns [x]. *)
Theorem C6_right_constant h x c :
  is_filter h x →
  (isinstance h (VRef c) Always = true →
     py_and x (VRef c) h = (h, Ok (VRef x)) ∧
     py_or x (VRef c) h =
       (h, Ok (VRef (if isinstance h (VRef x) Always then x else c)))) ∧
  (isinstance h (VRef c) Never = true →
     py_or x (VRef c) h = (h, Ok (VRef x)) ∧
     py_and x (VRef c) h =
       (h, Ok (VRef (if isinstance h (VRef x) Never then x else c)))).
Proof.
  intros (b & ac & oc & ir & Hx)%is_filter_lookup. split.
  - intros Hc%isinstance_Always%body_of_lookup. destruct Hc as (? & ? & ? & Hc).
    unfold py_and, py_or, Filter__and__, Filter__or__, isinstance, type_at.
    rewrite Hx, Hc. by destruct b.
  - intros Hc%isinstance_Never%body_of_lookup. destruct Hc as (? & ? & ? & Hc).
    unfold py_and, py_or, Filter__and__, Filter__or__, isinstance, type_at.
    rewrite Hx, Hc. by destruct b.
Qed.

(** ** The caches of [__and__] and [__or__] *)

Lemma keeps_classes_alloc o h : keeps_classes h (h ++ [o]).
Proof. intros x k. apply type_at_alloc_old. Qed.

Lemma keeps_classes_alter (f : obj → obj) self h :
  (∀ o, class_of (f o) = class_of o) → keeps_classes h (alter f self h).
Proof. intros Hf x k. by rewrite type_at_alter. Qed.

Lemma keeps_classes_trans h h1 h2 :
  keeps_classes h h1 → keeps_classes h1 h2 → keeps_classes h h2.
Proof. intros H1 H2 x k Hx. by apply H2, H1. Qed.

Lemma keeps_classes_isinstance h h1 a k :
  keeps_classes h h1 → (∃ c, type_at h a = Some c) →
  isinstance h1 (VRef a) k = isinstance h (VRef a) k.
Proof. intros Hk [c Hc]. simpl. by rewrite (Hk a c Hc), Hc. Qed.

Lemma is_filter_type h a : is_filter h a → ∃ c, type_at h a = Some c.
Proof.
  intros (b & ac & oc & ir & Ha)%is_filter_lookup. unfold type_at.
  rewrite Ha. eauto.
Qed.

Lemma _AndList_create_old l h a o :
  h !! a = Some o → (_AndList_create l h).1 !! a = Some o.
Proof.
  intros Ha. unfold _AndList_create.
  destruct (list_set l) as [|x [|y l']]; simpl; auto using lookup_alloc_old.
Qed.

Lemma _OrList_create_old l h a o :
  h !! a = Some o → (_OrList_create l h).1 !! a = Some o.
Proof.
  intros Ha. unfold _OrList_create.
  destruct (list_set l) as [|x [|y l']]; simpl; auto using lookup_alloc_old.
Qed.

Lemma keeps_classes_AndList_create l h : keeps_classes h (_AndList_create l h).1.
Proof.
  intros x k. unfold type_at. destruct (h !! x) as [o|] eqn:Hx; [|done].
  by rewrite (_AndList_create_old l h x o Hx).
Qed.

Lemma keeps_classes_OrList_create l h : keeps_classes h (_OrList_create l h).1.
Proof.
  intros x k. unfold type_at. destruct (h !! x) as [o|] eqn:Hx; [|done].
  by rewrite (_OrList_create_old l h x o Hx).
Qed.

(** A hit: [other in self._and_cache]. *)
Lemma Filter__and__hit h a c cache r :
  is_filter h c → is_constant h c = false →
  and_cache_of h a = Some cache → cache !! c = Some r →
  Filter__and__ a (VRef c) h = (h, Ok (VRef r)).
Proof.
  intros Hc [Hca Hcn]%is_constant_false Hcache Hr. unfold Filter__and__.
  unfold is_filter in Hc. by rewrite Hc, Hca, Hcn, Hcache, Hr.
Qed.

Lemma Filter__or__hit h a c cache r :
  is_filter h c → is_constant h c = false →
  or_cache_of h a = Some cache → cache !! c = Some r →
  Filter__or__ a (VRef c) h = (h, Ok (VRef r)).
Proof.
  intros Hc [Hca Hcn]%is_constant_false Hcache Hr. unfold Filter__or__.
  unfold is_filter in Hc. by rewrite Hc, Hca, Hcn, Hcache, Hr.
Qed.

(** A miss: build, store under [other], return. *)
Lemma Filter__and__miss h a c cache :
  is_filter h c → is_constant h c = false →
  and_cache_of h a = Some cache → cache !! c = None →
  Filter__and__ a (VRef c) h =
    (alter (set_and_cache c (_AndList_create [a; c] h).2) a (_AndList_create [a; c] h).1,
     Ok (VRef (_AndList_create [a; c] h).2)).
Proof.
  intros Hc [Hca Hcn]%is_constant_false Hcache Hr. unfold Filter__and__.
  unfold is_filter in Hc. rewrite Hc, Hca, Hcn, Hcache, Hr. simpl.
  by destruct (_AndList_create [a; c] h).
Qed.

Lemma Filter__or__miss h a c cache :
  is_filter h c → is_constant h c = false →
  or_cache_of h a = Some cache → cache !! c = None →
  Filter__or__ a (VRef c) h =
    (alter (set_or_cache c (_OrList_create [a; c] h).2) a (_OrList_create [a; c] h).1,
     Ok (VRef (_OrList_create [a; c] h).2)).
Proof.
  intros Hc [Hca Hcn]%is_constant_false Hcache Hr. unfold Filter__or__.
  unfold is_filter in Hc. rewrite Hc, Hca, Hcn, Hcache, Hr. simpl.
  by destruct (_OrList_create [a; c] h).
Qed.

Lemma is_filter_keeps h h1 a : keeps_classes h h1 → is_filter h a → is_filter h1 a.
Proof.
  intros Hk Ha. unfold is_filter.
  by rewrite (keeps_classes_isinstance h h1 a Filter Hk (is_filter_type h a Ha)).
Qed.

Lemma is_constant_keeps h h1 a :
  keeps_classes h h1 → is_filter h a → is_constant h1 a = is_constant h a.
Proof.
  intros Hk Ha. unfold is_constant.
  by rewrite !(keeps_classes_isinstance h h1 a _ Hk (is_filter_type h a Ha)).
Qed.

(** Two calls in a row of the base [__and__]. *)
Lemma Filter__and__twice h a c :
  is_filter h a → is_filter h c → is_constant h c = false →
  ∃ h1 r, Filter__and__ a (VRef c) h = (h1, Ok (VRef r)) ∧
          keeps_classes h h1 ∧
          (and_cache_of h1 a ≫= (.!! c)) = Some r ∧
          Filter__and__ a (VRef c) h1 = (h1, Ok (VRef r)).
Proof.
  intros Ha Hc Hcc.
  destruct (proj1 (is_filter_lookup h a) Ha) as (b & ac & oc & ir & Hla).
  assert (and_cache_of h a = Some ac) as Hcache
    by (unfold and_cache_of; by rewrite Hla).
  destruct (ac !! c) as [r|] eqn:Hr.
  - exists h, r. rewrite (Filter__and__hit h a c ac r) by done.
    split; [done|]. split; [by intros ? ?|]. split; [|done].
    rewrite Hcache. simpl. by rewrite Hr.
  - rewrite (Filter__and__miss h a c ac) by done.
    set (h0 := (_AndList_create [a; c] h).1).
    set (r := (_AndList_create [a; c] h).2).
    assert (keeps_classes h (alter (set_and_cache c r) a h0)) as Hk.
    { eapply keeps_classes_trans; [apply keeps_classes_AndList_create|].
      apply keeps_classes_alter, class_of_set_and_cache. }
    assert (and_cache_of (alter (set_and_cache c r) a h0) a = Some (<[c := r]> ac))
      as Hcache'.
    { unfold and_cache_of. rewrite list_lookup_alter_eq.
      unfold h0. by rewrite (_AndList_create_old _ h a _ Hla). }
    eexists _, _. split; [done|]. split; [done|]. split.
    + rewrite Hcache'. simpl. by rewrite lookup_insert_eq.
    + apply Filter__and__hit with (cache := <[c := r]> ac);
        [by eapply is_filter_keeps | by rewrite (is_constant_keeps h) | done
        | by rewrite lookup_insert_eq].
Qed.

Lemma Filter__or__twice h a c :
  is_filter h a → is_filter h c → is_constant h c = false →
  ∃ h1 r, Filter__or__ a (VRef c) h = (h1, Ok (VRef r)) ∧
          keeps_classes h h1 ∧
          (or_cache_of h1 a ≫= (.!! c)) = Some r ∧
          Filter__or__ a (VRef c) h1 = (h1, Ok (VRef r)).
Proof.
  intros Ha Hc Hcc.
  destruct (proj1 (is_filter_lookup h a) Ha) as (b & ac & oc & ir & Hla).
  assert (or_cache_of h a = Some oc) as Hcache
    by (unfold or_cache_of; by rewrite Hla).
  destruct (oc !! c) as [r|] eqn:Hr.
  - exists h, r. rewrite (Filter__or__hit h a c oc r) by done.
    split; [done|]. split; [by intros ? ?|]. split; [|done].
    rewrite Hcache. simpl. by rewrite Hr.
  - rewrite (Filter__or__miss h a c oc) by done.
    set (h0 := (_OrList_create [a; c] h).1).
    set (r := (_OrList_create [a; c] h).2).
    assert (keeps_classes h (alter (set_or_cache c r) a h0)) as Hk.
    { eapply keeps_classes_trans; [apply keeps_classes_OrList_create|].
      apply keeps_classes_alter, class_of_set_or_cache. }
    assert (or_cache_of (alter (set_or_cache c r) a h0) a = Some (<[c := r]> oc))
      as Hcache'.
    { unfold or_cache_of. rewrite list_lookup_alter_eq.
      unfold h0. by rewrite (_OrList_create_old _ h a _ Hla). }
    eexists _, _. split; [done|]. split; [done|]. split.
    + rewrite Hcache'. simpl. by rewrite lookup_insert_eq.
    + apply Filter__or__hit with (cache := <[c := r]> oc);
        [by eapply is_filter_keeps | by rewrite (is_constant_keeps h) | done
        | by rewrite lookup_insert_eq].
Qed.

Lemma py_and_base h a other :
  is_filter h a → isinstance h (VRef a) Never = false →
  py_and a other h = Filter__and__ a other h.
Proof.
  intros (b & ac & oc & ir & Ha)%is_filter_lookup Hn.
  apply py_and_Filter with (k := class_of_body b).
  - unfold type_at. by rewrite Ha.
  - apply class_of_body_Filter.
  - intros Hb. simpl in Hn. unfold type_at in Hn. rewrite Ha in Hn. simpl in Hn.
    by rewrite Hb in Hn.
Qed.

Lemma py_or_base h a other :
  is_filter h a → isinstance h (VRef a) Always = false →
  py_or a other h = Filter__or__ a other h.
Proof.
  intros (b & ac & oc & ir & Ha)%is_filter_lookup Hn.
  apply py_or_Filter with (k := class_of_body b).
  - unfold type_at. by rewrite Ha.
  - apply class_of_body_Filter.
  - intros Hb. simpl in Hn. unfold type_at in Hn. rewrite Ha in Hn. simpl in Hn.
    by rewrite Hb in Hn.
Qed.

(** ** The store invariant holds in every reachable store *)

Lemma wf_nil : wf [].
Proof. by split. Qed.

Lemma body_of_set_and_cache x r self h a :
  body_of (alter (set_and_cache x r) self h) a = body_of h a.
Proof.
  unfold body_of. rewrite list_lookup_alter. case_decide; [subst|done].
  by destruct (h !! a) as [[]|].
Qed.

Lemma body_of_set_or_cache x r self h a :
  body_of (alter (set_or_cache x r) self h) a = body_of h a.
Proof.
  unfold body_of. rewrite list_lookup_alter. case_decide; [subst|done].
  by destruct (h !! a) as [[]|].
Qed.

Lemma body_of_set_invert_result r self h a :
  body_of (alter (set_invert_result r) self h) a = body_of h a.
Proof.
  unfold body_of. rewrite list_lookup_alter. case_decide; [subst|done].
  by destruct (h !! a) as [[]|].
Qed.

Lemma wf_alloc h o : wf h → fresh_ok h o → wf (h ++ [o]).
Proof.
  intros [Hch Hand Hor] Ho. split.
  - intros a b. unfold body_of.
    destruct ((h ++ [o]) !! a) as [x|] eqn:Hx; [|done].
    apply lookup_snoc_Some in Hx as [[Hlt Hx] | [-> <-]].
    + intros Hb. apply (Hch a b). unfold body_of. by rewrite Hx.
    + destruct o as [b' ac oc ir|f]; [|done]. intros [= ->]. apply Ho.
  - intros a ac r. unfold and_cache_of.
    destruct ((h ++ [o]) !! a) as [x|] eqn:Hx; [|done].
    apply lookup_snoc_Some in Hx as [[Hlt Hx] | [-> <-]].
    + intros Hb. apply (Hand a ac r). unfold and_cache_of. by rewrite Hx.
    + destruct o as [b' ac' oc ir|f]; [|done]. destruct Ho as (_ & -> & _).
      by intros [= <-].
  - intros a oc r. unfold or_cache_of.
    destruct ((h ++ [o]) !! a) as [x|] eqn:Hx; [|done].
    apply lookup_snoc_Some in Hx as [[Hlt Hx] | [-> <-]].
    + intros Hb. apply (Hor a oc r). unfold or_cache_of. by rewrite Hx.
    + destruct o as [b' ac oc' ir|f]; [|done]. destruct Ho as (_ & _ & ->).
      by intros [= <-].
Qed.

Lemma wf_set_and_cache h self x r :
  wf h → (x = self → r = self) → wf (alter (set_and_cache x r) self h).
Proof.
  intros [Hch Hand Hor] Hx. split.
  - intros a b. rewrite body_of_set_and_cache. apply Hch.
  - intros a ac r'. unfold and_cache_of. rewrite list_lookup_alter.
    case_decide as Hd; [subst a|apply Hand].
    destruct (h !! self) as [[b ac' oc ir|f]|] eqn:Hs; simpl; [|done|done].
    intros [= <-]. destruct (decide (x = self)) as [->|Hne].
    + rewrite lookup_insert_eq. intros [= <-]. by apply Hx.
    + rewrite lookup_insert_ne by done. apply (Hand self ac' r').
      unfold and_cache_of. by rewrite Hs.
  - intros a oc r'. unfold or_cache_of. rewrite list_lookup_alter.
    case_decide as Hd; [subst a|apply Hor].
    destruct (h !! self) as [[b ac' oc' ir|f]|] eqn:Hs; simpl; [|done|done].
    intros [= <-]. apply (Hor self oc' r'). unfold or_cache_of. by rewrite Hs.
Qed.

Lemma wf_set_or_cache h self x r :
  wf h → (x = self → r = self) → wf (alter (set_or_cache x r) self h).
Proof.
  intros [Hch Hand Hor] Hx. split.
  - intros a b. rewrite body_of_set_or_cache. apply Hch.
  - intros a ac r'. unfold and_cache_of. rewrite list_lookup_alter.
    case_decide as Hd; [subst a|apply Hand].
    destruct (h !! self) as [[b ac' oc' ir|f]|] eqn:Hs; simpl; [|done|done].
    intros [= <-]. apply (Hand self ac' r'). unfold and_cache_of. by rewrite Hs.
  - intros a oc r'. unfold or_cache_of. rewrite list_lookup_alter.
    case_decide as Hd; [subst a|apply Hor].
    destruct (h !! self) as [[b ac oc' ir|f]|] eqn:Hs; simpl; [|done|done].
    intros [= <-]. destruct (decide (x = self)) as [->|Hne].
    + rewrite lookup_insert_eq. intros [= <-]. by apply Hx.
    + rewrite lookup_insert_ne by done. apply (Hor self oc' r').
      unfold or_cache_of. by rewrite Hs.
Qed.

Lemma wf_set_invert_result h self r : wf h → wf (alter (set_invert_result r) self h).
Proof.
  intros [Hch Hand Hor]. split.
  - intros a b. rewrite body_of_set_invert_result. apply Hch.
  - intros a ac r'. unfold and_cache_of. rewrite list_lookup_alter.
    case_decide as Hd; [subst a|apply Hand].
    destruct (h !! self) as [[b ac' oc' ir|f]|] eqn:Hs; simpl; [|done|done].
    intros [= <-]. apply (Hand self ac' r'). unfold and_cache_of. by rewrite Hs.
  - intros a oc r'. unfold or_cache_of. rewrite list_lookup_alter.
    case_decide as Hd; [subst a|apply Hor].
    destruct (h !! self) as [[b ac' oc' ir|f]|] eqn:Hs; simpl; [|done|done].
    intros [= <-]. apply (Hor self oc' r'). unfold or_cache_of. by rewrite Hs.
Qed.

Lemma wf_AndList_create h a c :
  wf h → a < List.length h → c < List.length h →
  wf (_AndList_create [a; c] h).1 ∧ (c = a → (_AndList_create [a; c] h).2 = a).
Proof.
  intros Hwf Ha Hc. destruct (decide (a = c)) as [<-|Hne].
  - by rewrite _AndList_create_same.
  - rewrite _AndList_create_pair by done. split; [|congruence].
    apply wf_alloc; [done|]. split; [|done]. apply Forall_forall.
    intros x. simpl. rewrite list_set_elem, !elem_of_cons, elem_of_nil.
    intros [-> | [-> | []]]; done.
Qed.

Lemma wf_OrList_create h a c :
  wf h → a < List.length h → c < List.length h →
  wf (_OrList_create [a; c] h).1 ∧ (c = a → (_OrList_create [a; c] h).2 = a).
Proof.
  intros Hwf Ha Hc. destruct (decide (a = c)) as [<-|Hne].
  - by rewrite _OrList_create_same.
  - rewrite _OrList_create_pair by done. split; [|congruence].
    apply wf_alloc; [done|]. split; [|done]. apply Forall_forall.
    intros x. simpl. rewrite list_set_elem, !elem_of_cons, elem_of_nil.
    intros [-> | [-> | []]]; done.
Qed.

Lemma isinstance_lt h a k : isinstance h (VRef a) k = true → a < List.length h.
Proof.
  simpl. unfold type_at. destruct (h !! a) as [o|] eqn:Ho; [|done].
  intros _. by eapply lookup_lt_heap.
Qed.

Lemma and_cache_of_lt h a ac : and_cache_of h a = Some ac → a < List.length h.
Proof.
  unfold and_cache_of. destruct (h !! a) as [o|] eqn:Ho; [|done].
  intros _. by eapply lookup_lt_heap.
Qed.

Lemma or_cache_of_lt h a oc : or_cache_of h a = Some oc → a < List.length h.
Proof.
  unfold or_cache_of. destruct (h !! a) as [o|] eqn:Ho; [|done].
  intros _. by eapply lookup_lt_heap.
Qed.

Lemma invert_result_of_lt h a ir : invert_result_of h a = Some ir → a < List.length h.
Proof.
  unfold invert_result_of. destruct (h !! a) as [o|] eqn:Ho; [|done].
  intros _. by eapply lookup_lt_heap.
Qed.

Lemma wf_Filter__and__ h self other : wf h → wf (Filter__and__ self other h).1.
Proof.
  intros Hwf. unfold Filter__and__.
  destruct (isinstance h other Filter) eqn:Hf; simpl; [|done].
  destruct (isinstance h other Always); [done|].
  destruct (isinstance h other Never); [done|].
  destruct other as [| | | |c]; try done.
  destruct (and_cache_of h self) as [cache|] eqn:Hcache; [|done].
  destruct (cache !! c) as [r|]; [done|].
  destruct (wf_AndList_create h self c Hwf) as [Hwf1 Hr];
    [by eapply and_cache_of_lt | by eapply isinstance_lt|].
  destruct (_AndList_create [self; c] h) as [h1 r]. simpl in *.
  by apply wf_set_and_cache.
Qed.

Lemma wf_Filter__or__ h self other : wf h → wf (Filter__or__ self other h).1.
Proof.
  intros Hwf. unfold Filter__or__.
  destruct (isinstance h other Filter) eqn:Hf; simpl; [|done].
  destruct (isinstance h other Always); [done|].
  destruct (isinstance h other Never); [done|].
  destruct other as [| | | |c]; try done.
  destruct (or_cache_of h self) as [cache|] eqn:Hcache; [|done].
  destruct (cache !! c) as [r|]; [done|].
  destruct (wf_OrList_create h self c Hwf) as [Hwf1 Hr];
    [by eapply or_cache_of_lt | by eapply isinstance_lt|].
  destruct (_OrList_create [self; c] h) as [h1 r]. simpl in *.
  by apply wf_set_or_cache.
Qed.

Lemma wf_Filter__invert__ h self : wf h → wf (Filter__invert__ self h).1.
Proof.
  intros Hwf. unfold Filter__invert__.
  destruct (invert_result_of h self) as [[r|]|] eqn:Hir; simpl; [done| |done].
  apply wf_set_invert_result, wf_alloc; [done|]. split; [|done].
  apply Forall_singleton. by eapply invert_result_of_lt.
Qed.

Lemma wf_exec h (p : op) : wf h → wf (exec p h).1.
Proof.
  intros Hwf. destruct p as [| |func|self args|self other|self other|self]; simpl.
  - by apply wf_alloc.
  - by apply wf_alloc.
  - by apply wf_alloc.
  - unfold Condition__call__. destruct args; [|done].
    destruct (h !! self) as [[]|]; simpl; try done. by apply wf_alloc.
  - unfold py_and. destruct (type_at h self) as [k|]; [|done].
    destruct (resolve k m__and__) as [[]|]; simpl; auto using wf_Filter__and__.
  - unfold py_or. destruct (type_at h self) as [k|]; [|done].
    destruct (resolve k m__or__) as [[]|]; simpl; auto using wf_Filter__or__.
  - unfold py_invert. destruct (type_at h self) as [k|]; [|done].
    destruct (resolve k m__invert__) as [[]|]; simpl;
      auto using wf_Filter__invert__; by apply wf_alloc.
Qed.

Lemma reachable_wf h : reachable h → wf h.
Proof. induction 1; [apply wf_nil | by apply wf_exec]. Qed.

Lemma reachable_run ops h : reachable h → reachable (run ops h).
Proof.
  revert h. induction ops as [|o ops IH]; intros h Hh; [done|].
  simpl. apply IH. by constructor.
Qed.

(** ** Nothing is ever invalidated *)

Lemma retains_refl h : retains h h.
Proof. by split; [intros ? ?|..]. Qed.

Lemma retains_trans h h1 h2 : retains h h1 → retains h1 h2 → retains h h2.
Proof.
  intros [Hc1 Hi1 Ha1 Ho1] [Hc2 Hi2 Ha2 Ho2]. split.
  - by eapply keeps_classes_trans.
  - intros a r Hr. by apply Hi2, Hi1.
  - intros a c r Hr. by apply Ha2, Ha1.
  - intros a c r Hr. by apply Ho2, Ho1.
Qed.

Lemma retains_of_lookup h h1 :
  (∀ a x, h !! a = Some x → h1 !! a = Some x) → retains h h1.
Proof.
  intros Hl. split.
  - intros a k. unfold type_at. destruct (h !! a) as [x|] eqn:Hx; [|done].
    by rewrite (Hl a x Hx).
  - intros a r. unfold invert_result_of.
    destruct (h !! a) as [x|] eqn:Hx; [|done]. by rewrite (Hl a x Hx).
  - intros a c r. unfold and_cache_of.
    destruct (h !! a) as [x|] eqn:Hx; [|done]. by rewrite (Hl a x Hx).
  - intros a c r. unfold or_cache_of.
    destruct (h !! a) as [x|] eqn:Hx; [|done]. by rewrite (Hl a x Hx).
Qed.

Lemma retains_alloc h o : retains h (h ++ [o]).
Proof. apply retains_of_lookup. intros a x. apply lookup_alloc_old. Qed.

Lemma retains_AndList_create l h : retains h (_AndList_create l h).1.
Proof. apply retains_of_lookup. intros a x. apply _AndList_create_old. Qed.

Lemma retains_OrList_create l h : retains h (_OrList_create l h).1.
Proof. apply retains_of_lookup. intros a x. apply _OrList_create_old. Qed.

Lemma retains_set_and_cache h self x r :
  and_cache_of h self ≫= (.!! x) = None →
  retains h (alter (set_and_cache x r) self h).
Proof.
  intros Hnew. split.
  - apply keeps_classes_alter, class_of_set_and_cache.
  - intros a r'. unfold invert_result_of. rewrite list_lookup_alter.
    case_decide; [subst|done]. by destruct (h !! a) as [[]|].
  - intros a c r'. unfold and_cache_of in *. rewrite list_lookup_alter.
    case_decide; [subst a|done].
    destruct (h !! self) as [[b ac oc ir|f]|]; simpl in *; try done.
    destruct (decide (x = c)) as [->|Hne]; [congruence|].
    by rewrite lookup_insert_ne.
  - intros a c r'. unfold or_cache_of. rewrite list_lookup_alter.
    case_decide; [subst|done]. by destruct (h !! a) as [[]|].
Qed.

Lemma retains_set_or_cache h self x r :
  or_cache_of h self ≫= (.!! x) = None →
  retains h (alter (set_or_cache x r) self h).
Proof.
  intros Hnew. split.
  - apply keeps_classes_alter, class_of_set_or_cache.
  - intros a r'. unfold invert_result_of. rewrite list_lookup_alter.
    case_decide; [subst|done]. by destruct (h !! a) as [[]|].
  - intros a c r'. unfold and_cache_of. rewrite list_lookup_alter.
    case_decide; [subst|done]. by destruct (h !! a) as [[]|].
  - intros a c r'. unfold or_cache_of in *. rewrite list_lookup_alter.
    case_decide; [subst a|done].
    destruct (h !! self) as [[b ac oc ir|f]|]; simpl in *; try done.
    destruct (decide (x = c)) as [->|Hne]; [congruence|].
    by rewrite lookup_insert_ne.
Qed.

Lemma retains_set_invert_result h self r :
  invert_result_of h self = Some None →
  retains h (alter (set_invert_result r) self h).
Proof.
  intros Hnew. split.
  - apply keeps_classes_alter, class_of_set_invert_result.
  - intros a r'. unfold invert_result_of in *. rewrite list_lookup_alter.
    case_decide; [subst a|done].
    destruct (h !! self) as [[b ac oc ir|f]|]; simpl in *; congruence.
  - intros a c r'. unfold and_cache_of. rewrite list_lookup_alter.
    case_decide; [subst|done]. by destruct (h !! a) as [[]|].
  - intros a c r'. unfold or_cache_of. rewrite list_lookup_alter.
    case_decide; [subst|done]. by destruct (h !! a) as [[]|].
Qed.

Lemma retains_Filter__and__ h self other : retains h (Filter__and__ self other h).1.
Proof.
  unfold Filter__and__.
  destruct (isinstance h other Filter); simpl; [|apply retains_refl].
  destruct (isinstance h other Always); [apply retains_refl|].
  destruct (isinstance h other Never); [apply retains_refl|].
  destruct other as [| | | |c]; try apply retains_refl.
  destruct (and_cache_of h self) as [cache|] eqn:Hcache; [|apply retains_refl].
  destruct (cache !! c) as [r|] eqn:Hr; [apply retains_refl|].
  pose proof (retains_AndList_create [self; c] h) as Hcr.
  destruct (_AndList_create [self; c] h) as [h1 r] eqn:Hc1. simpl in *.
  eapply retains_trans; [exact Hcr|]. apply retains_set_and_cache.
  unfold and_cache_of in *.
  destruct (h !! self) as [x|] eqn:Hx; [|done].
  assert (h1 !! self = Some x) as ->.
  { replace h1 with (_AndList_create [self; c] h).1 by by rewrite Hc1.
    by apply _AndList_create_old. }
  destruct x; [|done]. simpl. congruence.
Qed.

Lemma retains_Filter__or__ h self other : retains h (Filter__or__ self other h).1.
Proof.
  unfold Filter__or__.
  destruct (isinstance h other Filter); simpl; [|apply retains_refl].
  destruct (isinstance h other Always); [apply retains_refl|].
  destruct (isinstance h other Never); [apply retains_refl|].
  destruct other as [| | | |c]; try apply retains_refl.
  destruct (or_cache_of h self) as [cache|] eqn:Hcache; [|apply retains_refl].
  destruct (cache !! c) as [r|] eqn:Hr; [apply retains_refl|].
  pose proof (retains_OrList_create [self; c] h) as Hcr.
  destruct (_OrList_create [self; c] h) as [h1 r] eqn:Hc1. simpl in *.
  eapply retains_trans; [exact Hcr|]. apply retains_set_or_cache.
  unfold or_cache_of in *.
  destruct (h !! self) as [x|] eqn:Hx; [|done].
  assert (h1 !! self = Some x) as ->.
  { replace h1 with (_OrList_create [self; c] h).1 by by rewrite Hc1.
    by apply _OrList_create_old. }
  destruct x; [|done]. simpl. congruence.
Qed.

Lemma retains_Filter__invert__ h self : retains h (Filter__invert__ self h).1.
Proof.
  unfold Filter__invert__.
  destruct (invert_result_of h self) as [[r|]|] eqn:Hir; simpl;
    try apply retains_refl.
  eapply retains_trans; [apply retains_alloc|].
  apply retains_set_invert_result. unfold invert_result_of in *.
  destruct (h !! self) as [x|] eqn:Hx; [|done].
  by rewrite (lookup_alloc_old _ h self x Hx).
Qed.

Lemma retains_exec h (p : op) : retains h (exec p h).1.
Proof.
  destruct p as [| |func|self args|self other|self other|self]; simpl.
  - apply retains_alloc.
  - apply retains_alloc.
  - apply retains_alloc.
  - unfold Condition__call__. destruct args; [|apply retains_refl].
    destruct (h !! self) as [[]|]; simpl;
      try apply retains_refl; apply retains_alloc.
  - unfold py_and. destruct (type_at h self) as [k|]; [|apply retains_refl].
    destruct (resolve k m__and__) as [[]|]; simpl;
      try apply retains_refl; apply retains_Filter__and__.
  - unfold py_or. destruct (type_at h self) as [k|]; [|apply retains_refl].
    destruct (resolve k m__or__) as [[]|]; simpl;
      try apply retains_refl; apply retains_Filter__or__.
  - unfold py_invert. destruct (type_at h self) as [k|]; [|apply retains_refl].
    destruct (resolve k m__invert__) as [[]|]; simpl;
      try apply retains_refl; try apply retains_alloc;
      apply retains_Filter__invert__.
Qed.

Lemma retains_run ops h : retains h (run ops h).
Proof.
  revert h. induction ops as [|p ops IH]; intros h; [apply retains_refl|].
  simpl. eapply retains_trans; [apply retains_exec | apply IH].
Qed.

Lemma is_filter_run ops h a : is_filter h a → is_filter (run ops h) a.
Proof. apply is_filter_keeps, retains_class, retains_run. Qed.

Lemma is_constant_run ops h a :
  is_filter h a → is_constant (run ops h) a = is_constant h a.
Proof. apply is_constant_keeps, retains_class, retains_run. Qed.

(** A filled slot answers [~x]. *)
Lemma py_invert_cached h a r :
  is_filter h a → is_constant h a = false →
  invert_result_of h a = Some (Some r) →
  py_invert a h = (h, Ok (VRef r)).
Proof.
  intros Hf Hc Hr.
  destruct (proj1 (is_filter_lookup h a) Hf) as (b & ac & oc & ir & Ha).
  rewrite (py_invert_Filter h a b ac oc ir Ha Hc).
  unfold Filter__invert__. by rewrite Hr.
Qed.

(** The first [~x] fills the slot. *)
Lemma py_invert_first h a :
  is_filter h a → is_constant h a = false →
  ∃ h1 r, py_invert a h = (h1, Ok (VRef r)) ∧
          invert_result_of h1 a = Some (Some r) ∧ keeps_classes h h1.
Proof.
  intros Hf Hc.
  destruct (proj1 (is_filter_lookup h a) Hf) as (b & ac & oc & ir & Ha).
  rewrite (py_invert_Filter h a b ac oc ir Ha Hc).
  unfold Filter__invert__ at 1. unfold invert_result_of at 1. rewrite Ha.
  destruct ir as [r|].
  - exists h, r. split; [done|]. split; [|by intros ? ?].
    unfold invert_result_of. by rewrite Ha.
  - simpl. set (h' := h ++ [Filter__init__ (B_Invert a)]).
    assert (h' !! a = Some (FilterObj b ac oc None)) as Ha'
      by by apply lookup_alloc_old.
    eexists _, _. split; [done|]. split.
    + unfold invert_result_of.
      by rewrite (invert_result_of_set h' a (List.length h) b ac oc None Ha').
    + eapply keeps_classes_trans; [apply keeps_classes_alloc|].
      apply keeps_classes_alter, class_of_set_invert_result.
Qed.

(** C3 (as the code has it): a filter that is neither an [Always] nor a
    [Never] instance computes its negation once: the first [~x] fills
    [_invert_result], and from then on, whatever the program does in
    between, every [~x] returns that same object and leaves the store as
    it is.  An [Always] instance answers every [~] with a new [Never()], a
    [Never] instance with a new [Always()]. *)
Theorem C3_invert_cached_unless_constant h a :
  is_filter h a →
  (is_constant h a = false →
     ∃ h1 r, py_invert a h = (h1, Ok (VRef r)) ∧
             invert_result_of h1 a = Some (Some r) ∧
             ∀ ops, py_invert a (run ops h1) = (run ops h1, Ok (VRef r))) ∧
  (isinstance h (VRef a) Always = true →
     py_invert a h = (h ++ [Filter__init__ B_Never], Ok (VRef (List.length h)))) ∧
  (isinstance h (VRef a) Never = true →
     py_invert a h = (h ++ [Filter__init__ B_Always], Ok (VRef (List.length h)))).
Proof.
  intros Hf. split; [|split].
  - intros Hc. destruct (py_invert_first h a Hf Hc) as (h1 & r & H1 & Hr & Hk).
    exists h1, r. split; [done|]. split; [done|]. intros ops.
    assert (is_filter h1 a) as Hf1 by by eapply is_filter_keeps.
    apply py_invert_cached.
    + by apply is_filter_run.
    + by rewrite (is_constant_run ops h1 a Hf1), (is_constant_keeps h h1).
    + by apply (retains_invert h1 _ (retains_run ops h1)).
  - intros Hk%isinstance_Always. unfold py_invert, type_at.
    apply body_of_lookup in Hk as (? & ? & ? & ->). done.
  - intros Hk%isinstance_Never. unfold py_invert, type_at.
    apply body_of_lookup in Hk as (? & ? & ? & ->). done.
Qed.

(** A stored entry answers [a & c] and [a | c]. *)
Lemma py_and_cached h a c r :
  is_filter h a → is_filter h c →
  is_constant h a = false → is_constant h c = false →
  and_cache_of h a ≫= (.!! c) = Some r →
  py_and a (VRef c) h = (h, Ok (VRef r)).
Proof.
  intros Ha Hc [_ Han]%is_constant_false Hcc Hr.
  rewrite (py_and_base h a _ Ha Han).
  destruct (and_cache_of h a) as [cache|] eqn:Hcache; [|done].
  by apply Filter__and__hit with (cache := cache).
Qed.

Lemma py_or_cached h a c r :
  is_filter h a → is_filter h c →
  is_constant h a = false → is_constant h c = false →
  or_cache_of h a ≫= (.!! c) = Some r →
  py_or a (VRef c) h = (h, Ok (VRef r)).
Proof.
  intros Ha Hc [Haa _]%is_constant_false Hcc Hr.
  rewrite (py_or_base h a _ Ha Haa).
  destruct (or_cache_of h a) as [cache|] eqn:Hcache; [|done].
  by apply Filter__or__hit with (cache := cache).
Qed.

(** C8: for filters [a] and [c] that are not constants, [a & c] called
    twice in a row returns the same object: after the first call
    [a._and_cache[c]] holds the result, and every later [a & c] (the next
    one, or one after any further operations) returns it and changes
    nothing.  The same holds for [a | c] and [a._or_cache]. *)
Theorem C8_cache_stability h a c :
  is_filter h a → is_filter h c →
  is_constant h a = false → is_constant h c = false →
  (∃ h1 r, py_and a (VRef c) h = (h1, Ok (VRef r)) ∧
           (and_cache_of h1 a ≫= (.!! c)) = Some r ∧
           py_and a (VRef c) h1 = (h1, Ok (VRef r)) ∧
           ∀ ops, py_and a (VRef c) (run ops h1) = (run ops h1, Ok (VRef r))) ∧
  (∃ h1 r, py_or a (VRef c) h = (h1, Ok (VRef r)) ∧
           (or_cache_of h1 a ≫= (.!! c)) = Some r ∧
           py_or a (VRef c) h1 = (h1, Ok (VRef r)) ∧
           ∀ ops, py_or a (VRef c) (run ops h1) = (run ops h1, Ok (VRef r))).
Proof.
  intros Ha Hc Hac Hcc. pose proof (is_constant_false h a Hac) as [Haa Han].
  split.
  - destruct (Filter__and__twice h a c Ha Hc Hcc) as (h1 & r & H1 & Hk & Hr & H2).
    assert (is_filter h1 a) as Ha1 by by eapply is_filter_keeps.
    assert (is_filter h1 c) as Hc1 by by eapply is_filter_keeps.
    assert (is_constant h1 a = false) as Hac1 by by rewrite (is_constant_keeps h).
    assert (is_constant h1 c = false) as Hcc1 by by rewrite (is_constant_keeps h).
    exists h1, r. rewrite (py_and_base h a _ Ha Han). split; [done|].
    split; [done|]. split; [by apply py_and_cached|]. intros ops.
    apply py_and_cached.
    + by apply is_filter_run.
    + by apply is_filter_run.
    + by rewrite is_constant_run.
    + by rewrite is_constant_run.
    + by apply (retains_and h1 _ (retains_run ops h1)).
  - destruct (Filter__or__twice h a c Ha Hc Hcc) as (h1 & r & H1 & Hk & Hr & H2).
    assert (is_filter h1 a) as Ha1 by by eapply is_filter_keeps.
    assert (is_filter h1 c) as Hc1 by by eapply is_filter_keeps.
    assert (is_constant h1 a = false) as Hac1 by by rewrite (is_constant_keeps h).
    assert (is_constant h1 c = false) as Hcc1 by by rewrite (is_constant_keeps h).
    exists h1, r. rewrite (py_or_base h a _ Ha Haa). split; [done|].
    split; [done|]. split; [by apply py_or_cached|]. intros ops.
    apply py_or_cached.
    + by apply is_filter_run.
    + by apply is_filter_run.
    + by rewrite is_constant_run.
    + by rewrite is_constant_run.
    + by apply (retains_or h1 _ (retains_run ops h1)).
Qed.

(** ** Combining a filter with itself *)

Lemma Filter__and__self h x :
  wf h → is_filter h x → is_constant h x = false →
  ∃ h1, Filter__and__ x (VRef x) h = (h1, Ok (VRef x)) ∧
        List.length h1 = List.length h.
Proof.
  intros Hwf Hx Hc.
  destruct (proj1 (is_filter_lookup h x) Hx) as (b & ac & oc & ir & Hlx).
  assert (and_cache_of h x = Some ac) as Hcache
    by (unfold and_cache_of; by rewrite Hlx).
  destruct (ac !! x) as [r|] eqn:Hr.
  - exists h. rewrite (Filter__and__hit h x x ac r) by done.
    by rewrite (wf_and_self h Hwf x ac r Hcache Hr).
  - rewrite (Filter__and__miss h x x ac) by done.
    rewrite _AndList_create_same. simpl. eexists. split; [done|].
    apply length_alter.
Qed.

Lemma Filter__or__self h x :
  wf h → is_filter h x → is_constant h x = false →
  ∃ h1, Filter__or__ x (VRef x) h = (h1, Ok (VRef x)) ∧
        List.length h1 = List.length h.
Proof.
  intros Hwf Hx Hc.
  destruct (proj1 (is_filter_lookup h x) Hx) as (b & ac & oc & ir & Hlx).
  assert (or_cache_of h x = Some oc) as Hcache
    by (unfold or_cache_of; by rewrite Hlx).
  destruct (oc !! x) as [r|] eqn:Hr.
  - exists h. rewrite (Filter__or__hit h x x oc r) by done.
    by rewrite (wf_or_self h Hwf x oc r Hcache Hr).
  - rewrite (Filter__or__miss h x x oc) by done.
    rewrite _OrList_create_same. simpl. eexists. split; [done|].
    apply length_alter.
Qed.

(** C7: in every store the module's operations can produce, a filter [x]
    that is not a constant gives [x & x = x] and [x | x = x] as objects:
    the result is [x] itself and no object is allocated. *)
Theorem C7_self_combination h x :
  reachable h → is_filter h x → is_constant h x = false →
  (∃ h1, py_and x (VRef x) h = (h1, Ok (VRef x)) ∧
         List.length h1 = List.length h) ∧
  (∃ h1, py_or x (VRef x) h = (h1, Ok (VRef x)) ∧
         List.length h1 = List.length h).
Proof.
  intros Hwf%reachable_wf Hx Hc.
  pose proof (is_constant_false h x Hc) as [Ha Hn]. split.
  - rewrite (py_and_base h x _ Hx Hn). by apply Filter__and__self.
  - rewrite (py_or_base h x _ Hx Ha). by apply Filter__or__self.
Qed.

(** ** Evaluation *)

Lemma py_all_ext (f g : addr → trace * result bool) l :
  Forall (λ c, f c = g c) l → py_all f l = py_all g l.
Proof.
  induction 1 as [|c l Hc _ IH]; [done|]. simpl. by rewrite Hc, IH.
Qed.

Lemma py_any_ext (f g : addr → trace * result bool) l :
  Forall (λ c, f c = g c) l → py_any f l = py_any g l.
Proof.
  induction 1 as [|c l Hc _ IH]; [done|]. simpl. by rewrite Hc, IH.
Qed.

(** Any depth above the address gives the same answer. *)
Lemma eval_depth h e : wf h → ∀ a n m, a < n → a < m → eval n h e a = eval m h e a.
Proof.
  intros Hwf a. induction (lt_wf a) as [a _ IH]. intros [|n] [|m] Hn Hm; try lia.
  simpl. destruct (body_of h a) as [b|] eqn:Hb; [|done].
  pose proof (wf_children h Hwf a b Hb) as Hch.
  destruct b as [fs|fs|c| | |f]; simpl in Hch; try done.
  - apply py_all_ext. eapply Forall_impl; [exact Hch|].
    intros c Hc. simpl in Hc. apply IH; lia.
  - apply py_any_ext. eapply Forall_impl; [exact Hch|].
    intros c Hc. simpl in Hc. apply IH; lia.
  - rewrite Forall_singleton in Hch. rewrite (IH c Hch n m) by lia. done.
Qed.

Lemma Filter__call__AndList h e a filters :
  wf h → body_of h a = Some (B_AndList filters) →
  Filter__call__ h e a = py_all (Filter__call__ h e) filters.
Proof.
  intros Hwf Hb. unfold Filter__call__ at 1. simpl. rewrite Hb.
  apply py_all_ext. pose proof (wf_children h Hwf a _ Hb) as Hch.
  eapply Forall_impl; [exact Hch|]. intros c Hc. simpl in Hc.
  apply eval_depth; [done | lia | lia].
Qed.

Lemma Filter__call__OrList h e a filters :
  wf h → body_of h a = Some (B_OrList filters) →
  Filter__call__ h e a = py_any (Filter__call__ h e) filters.
Proof.
  intros Hwf Hb. unfold Filter__call__ at 1. simpl. rewrite Hb.
  apply py_any_ext. pose proof (wf_children h Hwf a _ Hb) as Hch.
  eapply Forall_impl; [exact Hch|]. intros c Hc. simpl in Hc.
  apply eval_depth; [done | lia | lia].
Qed.

Lemma Filter__call__Invert h e a filter :
  wf h → body_of h a = Some (B_Invert filter) →
  Filter__call__ h e a =
    ((Filter__call__ h e filter).1, result_map negb (Filter__call__ h e filter).2).
Proof.
  intros Hwf Hb. unfold Filter__call__ at 1. simpl. rewrite Hb.
  pose proof (wf_children h Hwf a _ Hb) as Hch. simpl in Hch.
  rewrite Forall_singleton in Hch.
  rewrite (eval_depth h e Hwf filter a (S filter)) by lia.
  unfold Filter__call__. by destruct (eval (S filter) h e filter).
Qed.

Lemma py_all_true (call : addr → trace * result bool) l :
  (py_all call l).2 = Ok true ↔ Forall (λ c, (call c).2 = Ok true) l.
Proof.
  induction l as [|c l IH]; simpl.
  - split; [by constructor | done].
  - rewrite Forall_cons, <- IH.
    destruct (call c) as [t [[|]|ex]]; simpl;
      [destruct (py_all call l) as [t' r']; simpl | |]; intuition congruence.
Qed.




(** Over children that all return a boolean this is: some child is
    true. *)
Lemma py_any_true_bool (call : addr → trace * result bool) l :
  Forall (λ c, ∃ v, (call c).2 = Ok v) l →
  (py_any call l).2 = Ok true ↔ Exists (λ c, (call c).2 = Ok true) l.
Proof.
  induction 1 as [|c l [v Hv] _ IH]; simpl.
  - rewrite Exists_nil. split; [done | tauto].
  - rewrite Exists_cons, <- IH.
    destruct (call c) as [t [[|]|ex]]; simpl in *;
      [|destruct (py_any call l) as [t' r']; simpl|]; intuition congruence.
Qed.


End Facts.

(** * The laws on the sample store *)

Lemma sample_heap_reachable : reachable (PS := first_seen) sample_heap.
Proof. apply reachable_run, reachable_init. Qed.

(** The documentation's scenario, with the leaves taken from the wrappers
    by a call: [f()] follows [mode == "insert" and not readonly]. *)
Example scenario_evaluates :
  Filter__call__ scenario_heap insert_writable 4 = ([1; 3], Ok true) ∧
  Filter__call__ scenario_heap (<["readonly" := VBool true]> insert_writable) 4
    = ([1; 3], Ok false) ∧
  Filter__call__ scenario_heap (<["mode" := VStr "navigation"]> insert_writable) 4
    = ([1], Ok false).
Proof. repeat split; by vm_compute. Qed.

(** Without the calls, [Condition(...) & Condition(...)] raises. *)
Example scenario_wrappers_do_not_combine :
  (py_and (PS := first_seen) 0 (VRef 2) scenario_heap).2
    = Raise (unsupported "&").
Proof. by vm_compute. Qed.

Lemma C4_truth_test_raises_witness :
  py_bool sample_heap (VRef 0) = Raise (ValueError ambiguous) ∧
  py_bool sample_heap (VRef 1) = Raise (ValueError ambiguous) ∧
  py_bool sample_heap (VRef 3) = Raise (ValueError ambiguous) ∧
  py_bool sample_heap (VRef 8) = Raise (ValueError ambiguous) ∧
  py_bool sample_heap (VRef 9) = Raise (ValueError ambiguous) ∧
  py_bool sample_heap (VRef 10) = Raise (ValueError ambiguous).
Proof.
  split; [|split; [|split; [|split; [|split]]]].
  - apply (C4_truth_test_raises sample_heap 0 B_Always ∅ ∅ None). reflexivity.
  - apply (C4_truth_test_raises sample_heap 1 B_Never ∅ ∅ None). reflexivity.
  - apply (C4_truth_test_raises sample_heap 3 (B_Condition const_false)
             {[5 := 8]} ∅ (Some 10)).
    reflexivity.
  - apply (C4_truth_test_raises sample_heap 8 (B_AndList [3; 5]) ∅ ∅ None).
    reflexivity.
  - apply (C4_truth_test_raises sample_heap 9 (B_OrList [7; 5]) ∅ ∅ None).
    reflexivity.
  - apply (C4_truth_test_raises sample_heap 10 (B_Invert 3) ∅ ∅ None).
    reflexivity.
Defined.

(** C3 does not hold of the constants: two negations of the one [Always]
    at address 0 return two different [Never] objects, at addresses 1 and
    2. *)
Lemma C3_constants_counterexample :
  let h : heap := run (PS := first_seen) [Op_Always] [] in
  is_filter h 0 ∧
  ∃ h1 h2,
    py_invert 0 h = (h1, Ok (VRef 1)) ∧
    py_invert 0 h1 = (h2, Ok (VRef 2)) ∧
    body_of h2 1 = Some B_Never ∧ body_of h2 2 = Some B_Never ∧
    VRef 1 ≠ VRef 2.
Proof.
  split; [reflexivity|]. eexists _, _.
  split; [reflexivity|]. split; [reflexivity|]. repeat split. discriminate.
Qed.

Lemma C3_invert_cached_witness :
  is_filter sample_heap 7 ∧ is_constant sample_heap 7 = false ∧
  ∃ h1 r, py_invert 7 sample_heap = (h1, Ok (VRef r)) ∧
          invert_result_of h1 7 = Some (Some r) ∧
          ∀ ops, py_invert 7 (run (PS := first_seen) ops h1)
                 = (run (PS := first_seen) ops h1, Ok (VRef r)).
Proof.
  assert (is_filter sample_heap 7) as Hf by reflexivity.
  assert (is_constant sample_heap 7 = false) as Hc by reflexivity.
  split; [exact Hf|]. split; [exact Hc|].
  exact (proj1 (C3_invert_cached_unless_constant (PS := first_seen)
                  sample_heap 7 Hf) Hc).
Defined.

(** C6 does not hold when [x] is an instance of the same constant class
    as the operand: with the two [Never] objects at 11 and
    12, [x & Never] returns [x] (11), not the operand (12); with the two
    [Always] objects at 0 and 13, [x | Always] returns [x] (0), not the
    operand (13). *)
Lemma C6_same_constant_counterexample :
  body_of sample_heap 11 = Some B_Never ∧
  body_of sample_heap 12 = Some B_Never ∧
  py_and (PS := first_seen) 11 (VRef 12) sample_heap = (sample_heap, Ok (VRef 11)) ∧
  VRef 11 ≠ VRef 12 ∧
  body_of sample_heap 0 = Some B_Always ∧
  body_of sample_heap 13 = Some B_Always ∧
  py_or (PS := first_seen) 0 (VRef 13) sample_heap = (sample_heap, Ok (VRef 0)) ∧
  VRef 0 ≠ VRef 13.
Proof. repeat split; discriminate. Qed.

Lemma C6_right_constant_witness :
  is_filter sample_heap 3 ∧
  isinstance sample_heap (VRef 0) Always = true ∧
  isinstance sample_heap (VRef 1) Never = true ∧
  py_and (PS := first_seen) 3 (VRef 0) sample_heap = (sample_heap, Ok (VRef 3)) ∧
  py_or (PS := first_seen) 3 (VRef 0) sample_heap = (sample_heap, Ok (VRef 0)) ∧
  py_or (PS := first_seen) 3 (VRef 1) sample_heap = (sample_heap, Ok (VRef 3)) ∧
  py_and (PS := first_seen) 3 (VRef 1) sample_heap = (sample_heap, Ok (VRef 1)).
Proof.
  assert (is_filter sample_heap 3) as Hf by reflexivity.
  assert (isinstance sample_heap (VRef 0) Always = true) as Ha by reflexivity.
  assert (isinstance sample_heap (VRef 1) Never = true) as Hn by reflexivity.
  split; [exact Hf|]. split; [exact Ha|]. split; [exact Hn|].
  destruct (C6_right_constant (PS := first_seen) sample_heap 3 0 Hf) as [HA _].
  destruct (C6_right_constant (PS := first_seen) sample_heap 3 1 Hf) as [_ HN].
  destruct (HA Ha) as [H1 H2]. destruct (HN Hn) as [H3 H4].
  split; [exact H1|]. split; [exact H2|]. split; [exact H3|]. exact H4.
Defined.

Lemma C7_self_combination_witness :
  (∃ h1, py_and (PS := first_seen) 3 (VRef 3) sample_heap = (h1, Ok (VRef 3)) ∧
         List.length h1 = List.length sample_heap) ∧
  (∃ h1, py_or (PS := first_seen) 3 (VRef 3) sample_heap = (h1, Ok (VRef 3)) ∧
         List.length h1 = List.length sample_heap).
Proof.
  apply (C7_self_combination (PS := first_seen) sample_heap 3).
  - apply (reachable_run (PS := first_seen)), reachable_init.
  - reflexivity.
  - reflexivity.
Defined.

Lemma C8_cache_stability_witness :
  (∃ h1 r, py_and (PS := first_seen) 3 (VRef 7) sample_heap = (h1, Ok (VRef r)) ∧
           (and_cache_of h1 3 ≫= (.!! 7)) = Some r ∧
           py_and (PS := first_seen) 3 (VRef 7) h1 = (h1, Ok (VRef r)) ∧
           ∀ ops, py_and (PS := first_seen) 3 (VRef 7) (run (PS := first_seen) ops h1)
                  = (run (PS := first_seen) ops h1, Ok (VRef r))) ∧
  (∃ h1 r, py_or (PS := first_seen) 3 (VRef 7) sample_heap = (h1, Ok (VRef r)) ∧
           (or_cache_of h1 3 ≫= (.!! 7)) = Some r ∧
           py_or (PS := first_seen) 3 (VRef 7) h1 = (h1, Ok (VRef r)) ∧
           ∀ ops, py_or (PS := first_seen) 3 (VRef 7) (run (PS := first_seen) ops h1)
                  = (run (PS := first_seen) ops h1, Ok (VRef r))).
Proof.
  apply (C8_cache_stability (PS := first_seen) sample_heap 3 7); reflexivity.
Defined.



(** * Further facts about the module *)

Section MoreFacts.

Context {PS : PySet}.
Implicit Types (h : heap) (a self : addr) (o : obj) (b : body) (k : pyclass).

(** ** Bodies are never reassigned *)

Lemma keeps_bodies_refl h : keeps_bodies h h.
Proof. by intros a b. Qed.

Lemma keeps_bodies_trans h h1 h2 :
  keeps_bodies h h1 → keeps_bodies h1 h2 → keeps_bodies h h2.
Proof. intros H1 H2 a b Hb. by apply H2, H1. Qed.

Lemma keeps_bodies_of_lookup h h1 :
  (∀ a x, h !! a = Some x → h1 !! a = Some x) → keeps_bodies h h1.
Proof.
  intros Hl a b. unfold body_of. destruct (h !! a) as [x|] eqn:Hx; [|done].
  by rewrite (Hl a x Hx).
Qed.

Lemma keeps_bodies_alloc h o : keeps_bodies h (h ++ [o]).
Proof. apply keeps_bodies_of_lookup. intros a x. apply lookup_alloc_old. Qed.

Lemma keeps_bodies_Filter__and__ h self other :
  keeps_bodies h (Filter__and__ self other h).1.
Proof.
  unfold Filter__and__.
  destruct (isinstance h other Filter); simpl; [|apply keeps_bodies_refl].
  destruct (isinstance h other Always); [apply keeps_bodies_refl|].
  destruct (isinstance h other Never); [apply keeps_bodies_refl|].
  destruct other as [| | | |c]; try apply keeps_bodies_refl.
  destruct (and_cache_of h self) as [cache|]; [|apply keeps_bodies_refl].
  destruct (cache !! c) as [r|]; [apply keeps_bodies_refl|].
  pose proof (_AndList_create_old [self; c] h) as Hold.
  destruct (_AndList_create [self; c] h) as [h1 r]. simpl in *.
  intros a b Hb. rewrite body_of_set_and_cache.
  by apply (keeps_bodies_of_lookup h h1 Hold).
Qed.

Lemma keeps_bodies_Filter__or__ h self other :
  keeps_bodies h (Filter__or__ self other h).1.
Proof.
  unfold Filter__or__.
  destruct (isinstance h other Filter); simpl; [|apply keeps_bodies_refl].
  destruct (isinstance h other Always); [apply keeps_bodies_refl|].
  destruct (isinstance h other Never); [apply keeps_bodies_refl|].
  destruct other as [| | | |c]; try apply keeps_bodies_refl.
  destruct (or_cache_of h self) as [cache|]; [|apply keeps_bodies_refl].
  destruct (cache !! c) as [r|]; [apply keeps_bodies_refl|].
  pose proof (_OrList_create_old [self; c] h) as Hold.
  destruct (_OrList_create [self; c] h) as [h1 r]. simpl in *.
  intros a b Hb. rewrite body_of_set_or_cache.
  by apply (keeps_bodies_of_lookup h h1 Hold).
Qed.

Lemma keeps_bodies_Filter__invert__ h self :
  keeps_bodies h (Filter__invert__ self h).1.
Proof.
  unfold Filter__invert__.
  destruct (invert_result_of h self) as [[r|]|]; simpl;
    try apply keeps_bodies_refl.
  intros a b Hb. rewrite body_of_set_invert_result. by apply keeps_bodies_alloc.
Qed.

Lemma keeps_bodies_exec h (p : op) : keeps_bodies h (exec p h).1.
Proof.
  destruct p as [| |func|self args|self other|self other|self]; simpl.
  - apply keeps_bodies_alloc.
  - apply keeps_bodies_alloc.
  - apply keeps_bodies_alloc.
  - unfold Condition__call__. destruct args; [|apply keeps_bodies_refl].
    destruct (h !! self) as [[]|]; simpl;
      try apply keeps_bodies_refl; apply keeps_bodies_alloc.
  - unfold py_and. destruct (type_at h self) as [k|]; [|apply keeps_bodies_refl].
    destruct (resolve k m__and__) as [[]|]; simpl;
      try apply keeps_bodies_refl; apply keeps_bodies_Filter__and__.
  - unfold py_or. destruct (type_at h self) as [k|]; [|apply keeps_bodies_refl].
    destruct (resolve k m__or__) as [[]|]; simpl;
      try apply keeps_bodies_refl; apply keeps_bodies_Filter__or__.
  - unfold py_invert. destruct (type_at h self) as [k|]; [|apply keeps_bodies_refl].
    destruct (resolve k m__invert__) as [[]|]; simpl;
      try apply keeps_bodies_refl; try apply keeps_bodies_alloc;
      apply keeps_bodies_Filter__invert__.
Qed.

Lemma keeps_bodies_run ops h : keeps_bodies h (run ops h).
Proof.
  revert h. induction ops as [|p ops IH]; intros h; [apply keeps_bodies_refl|].
  simpl. eapply keeps_bodies_trans; [apply keeps_bodies_exec | apply IH].
Qed.

Lemma is_Some_body_keeps h h1 a :
  keeps_bodies h h1 → is_Some (body_of h a) → is_Some (body_of h1 a).
Proof. intros Hk [b Hb]. exists b. by apply Hk. Qed.

Lemma is_filter_body h a : is_filter h a ↔ is_Some (body_of h a).
Proof.
  rewrite is_filter_lookup. unfold body_of. split.
  - intros (b & ac & oc & ir & ->). by exists b.
  - intros [b Hb]. destruct (h !! a) as [[b' ac oc ir|f]|]; [eauto|done|done].
Qed.

(** ** What the caches and the negation slot hold *)

Lemma pair_node_keeps h h1 mk a c r :
  keeps_bodies h h1 → pair_node h mk a c r → pair_node h1 mk a c r.
Proof.
  intros Hk [Hl | (Hne & fs & Hb & Hp)]; [by left|].
  right. split; [done|]. exists fs. split; [by apply Hk | done].
Qed.

Lemma sound_nil : sound [].
Proof. by split. Qed.

Lemma body_of_snoc h o a b :
  body_of (h ++ [o]) a = Some b →
  body_of h a = Some b ∨ (a = List.length h ∧ ∃ ac oc ir, o = FilterObj b ac oc ir).
Proof.
  unfold body_of. destruct ((h ++ [o]) !! a) as [x|] eqn:Hx; [|done].
  apply lookup_snoc_Some in Hx as [[Hlt Hx] | [-> <-]].
  - rewrite Hx. by left.
  - destruct o as [b' ac oc ir|f]; [|done]. intros [= ->]. right. eauto.
Qed.

Lemma sound_alloc h o : sound h → fresh_sound h o → sound (h ++ [o]).
Proof.
  intros [Hch Hand Hor Hinv] Ho.
  pose proof (keeps_bodies_alloc h o) as Hk. split.
  - intros a b [Hb | (-> & ac & oc & ir & ->)]%body_of_snoc.
    + eapply Forall_impl; [exact (Hch a b Hb)|]. intros c Hc. simpl.
      by eapply is_Some_body_keeps.
    + destruct Ho as (Hf & _). eapply Forall_impl; [exact Hf|].
      intros c Hc. simpl. by eapply is_Some_body_keeps.
  - intros a ac c r. unfold and_cache_of.
    destruct ((h ++ [o]) !! a) as [x|] eqn:Hx; [|done].
    apply lookup_snoc_Some in Hx as [[Hlt Hx] | [-> <-]].
    + intros Hac Hr. apply (pair_node_keeps h _ _ _ _ _ Hk).
      apply (Hand a ac c r); [|done]. unfold and_cache_of. by rewrite Hx.
    + destruct o as [b' ac' oc ir|f]; [|done]. destruct Ho as (_ & -> & _).
      by intros [= <-].
  - intros a oc c r. unfold or_cache_of.
    destruct ((h ++ [o]) !! a) as [x|] eqn:Hx; [|done].
    apply lookup_snoc_Some in Hx as [[Hlt Hx] | [-> <-]].
    + intros Hoc Hr. apply (pair_node_keeps h _ _ _ _ _ Hk).
      apply (Hor a oc c r); [|done]. unfold or_cache_of. by rewrite Hx.
    + destruct o as [b' ac oc' ir|f]; [|done]. destruct Ho as (_ & _ & -> & _).
      by intros [= <-].
  - intros a r. unfold invert_result_of.
    destruct ((h ++ [o]) !! a) as [x|] eqn:Hx; [|done].
    apply lookup_snoc_Some in Hx as [[Hlt Hx] | [-> <-]].
    + intros Hir. apply Hk, Hinv. unfold invert_result_of. by rewrite Hx.
    + destruct o as [b' ac oc ir|f]; [|done]. destruct Ho as (_ & _ & _ & ->).
      done.
Qed.

Lemma sound_set_and_cache h self c r :
  sound h → pair_node h B_AndList self c r →
  sound (alter (set_and_cache c r) self h).
Proof.
  intros [Hch Hand Hor Hinv] Hp.
  assert (keeps_bodies h (alter (set_and_cache c r) self h)) as Hk
    by (intros a b; by rewrite body_of_set_and_cache).
  split.
  - intros a b. rewrite body_of_set_and_cache. intros Hb.
    eapply Forall_impl; [exact (Hch a b Hb)|]. intros x Hx. simpl.
    by rewrite body_of_set_and_cache.
  - intros a ac c' r' Hac Hr. apply (pair_node_keeps h _ _ _ _ _ Hk).
    revert Hac Hr. unfold and_cache_of. rewrite list_lookup_alter.
    case_decide as Hd; [subst a|apply Hand].
    destruct (h !! self) as [[b ac' oc ir|f]|] eqn:Hs; simpl; [|done|done].
    intros [= <-]. destruct (decide (c = c')) as [->|Hne].
    + rewrite lookup_insert_eq. by intros [= <-].
    + rewrite lookup_insert_ne by done. apply (Hand self ac' c' r').
      unfold and_cache_of. by rewrite Hs.
  - intros a oc c' r' Hoc Hr. apply (pair_node_keeps h _ _ _ _ _ Hk).
    revert Hoc Hr. unfold or_cache_of. rewrite list_lookup_alter.
    case_decide as Hd; [subst a|apply Hor].
    destruct (h !! self) as [[b ac' oc' ir|f]|] eqn:Hs; simpl; [|done|done].
    intros [= <-]. apply (Hor self oc' c' r'). unfold or_cache_of. by rewrite Hs.
  - intros a r' Hir. apply Hk, Hinv. revert Hir.
    unfold invert_result_of. rewrite list_lookup_alter.
    case_decide as Hd; [subst a|done]. by destruct (h !! self) as [[]|].
Qed.

Lemma sound_set_or_cache h self c r :
  sound h → pair_node h B_OrList self c r →
  sound (alter (set_or_cache c r) self h).
Proof.
  intros [Hch Hand Hor Hinv] Hp.
  assert (keeps_bodies h (alter (set_or_cache c r) self h)) as Hk
    by (intros a b; by rewrite body_of_set_or_cache).
  split.
  - intros a b. rewrite body_of_set_or_cache. intros Hb.
    eapply Forall_impl; [exact (Hch a b Hb)|]. intros x Hx. simpl.
    by rewrite body_of_set_or_cache.
  - intros a ac c' r' Hac Hr. apply (pair_node_keeps h _ _ _ _ _ Hk).
    revert Hac Hr. unfold and_cache_of. rewrite list_lookup_alter.
    case_decide as Hd; [subst a|apply Hand].
    destruct (h !! self) as [[b ac' oc' ir|f]|] eqn:Hs; simpl; [|done|done].
    intros [= <-]. apply (Hand self ac' c' r'). unfold and_cache_of. by rewrite Hs.
  - intros a oc c' r' Hoc Hr. apply (pair_node_keeps h _ _ _ _ _ Hk).
    revert Hoc Hr. unfold or_cache_of. rewrite list_lookup_alter.
    case_decide as Hd; [subst a|apply Hor].
    destruct (h !! self) as [[b ac oc' ir|f]|] eqn:Hs; simpl; [|done|done].
    intros [= <-]. destruct (decide (c = c')) as [->|Hne].
    + rewrite lookup_insert_eq. by intros [= <-].
    + rewrite lookup_insert_ne by done. apply (Hor self oc' c' r').
      unfold or_cache_of. by rewrite Hs.
  - intros a r' Hir. apply Hk, Hinv. revert Hir.
    unfold invert_result_of. rewrite list_lookup_alter.
    case_decide as Hd; [subst a|done]. by destruct (h !! self) as [[]|].
Qed.

Lemma sound_set_invert_result h self r :
  sound h → body_of h r = Some (B_Invert self) →
  sound (alter (set_invert_result r) self h).
Proof.
  intros [Hch Hand Hor Hinv] Hp.
  assert (keeps_bodies h (alter (set_invert_result r) self h)) as Hk
    by (intros a b; by rewrite body_of_set_invert_result).
  split.
  - intros a b. rewrite body_of_set_invert_result. intros Hb.
    eapply Forall_impl; [exact (Hch a b Hb)|]. intros x Hx. simpl.
    by rewrite body_of_set_invert_result.
  - intros a ac c' r' Hac Hr. apply (pair_node_keeps h _ _ _ _ _ Hk).
    revert Hac Hr. unfold and_cache_of. rewrite list_lookup_alter.
    case_decide as Hd; [subst a|apply Hand].
    destruct (h !! self) as [[b ac' oc' ir|f]|] eqn:Hs; simpl; [|done|done].
    intros [= <-]. apply (Hand self ac' c' r'). unfold and_cache_of. by rewrite Hs.
  - intros a oc c' r' Hoc Hr. apply (pair_node_keeps h _ _ _ _ _ Hk).
    revert Hoc Hr. unfold or_cache_of. rewrite list_lookup_alter.
    case_decide as Hd; [subst a|apply Hor].
    destruct (h !! self) as [[b ac' oc' ir|f]|] eqn:Hs; simpl; [|done|done].
    intros [= <-]. apply (Hor self oc' c' r'). unfold or_cache_of. by rewrite Hs.
  - intros a r'. rewrite body_of_set_invert_result.
    unfold invert_result_of. rewrite list_lookup_alter.
    case_decide as Hd; [subst a|apply Hinv].
    destruct (h !! self) as [[b ac' oc' ir|f]|] eqn:Hs; simpl; [|done|done].
    by intros [= <-].
Qed.

Lemma list_set_Permutation l : NoDup l → list_set l ≡ₚ l.
Proof.
  intros Hl. apply NoDup_Permutation; [apply list_set_NoDup | done |].
  apply list_set_elem.
Qed.

Lemma and_cache_of_body h a ac : and_cache_of h a = Some ac → is_Some (body_of h a).
Proof.
  unfold and_cache_of, body_of. destruct (h !! a) as [[b ? ? ?|f]|]; [eauto|done|done].
Qed.

Lemma or_cache_of_body h a oc : or_cache_of h a = Some oc → is_Some (body_of h a).
Proof.
  unfold or_cache_of, body_of. destruct (h !! a) as [[b ? ? ?|f]|]; [eauto|done|done].
Qed.

Lemma invert_result_of_body h a ir :
  invert_result_of h a = Some ir → is_Some (body_of h a).
Proof.
  unfold invert_result_of, body_of.
  destruct (h !! a) as [[b ? ? ?|f]|]; [eauto|done|done].
Qed.

Lemma body_of_alloc_new h b :
  body_of (h ++ [Filter__init__ b]) (List.length h) = Some b.
Proof. unfold body_of. by rewrite lookup_alloc_new. Qed.

Lemma sound_AndList_create h a c :
  sound h → is_Some (body_of h a) → is_Some (body_of h c) →
  sound (_AndList_create [a; c] h).1 ∧
  pair_node (_AndList_create [a; c] h).1 B_AndList a c (_AndList_create [a; c] h).2.
Proof.
  intros Hs Ha Hc. destruct (decide (a = c)) as [<-|Hne].
  - rewrite _AndList_create_same. split; [done | by left].
  - rewrite _AndList_create_pair by done. simpl. split.
    + apply sound_alloc; [done|]. split; [|done]. apply Forall_forall.
      intros x. simpl. rewrite list_set_elem, !elem_of_cons, elem_of_nil.
      intros [-> | [-> | []]]; done.
    + right. split; [done|]. eexists. split; [apply body_of_alloc_new|].
      apply list_set_Permutation, NoDup_cons.
      split; [by rewrite list_elem_of_singleton | apply NoDup_singleton].
Qed.

Lemma sound_OrList_create h a c :
  sound h → is_Some (body_of h a) → is_Some (body_of h c) →
  sound (_OrList_create [a; c] h).1 ∧
  pair_node (_OrList_create [a; c] h).1 B_OrList a c (_OrList_create [a; c] h).2.
Proof.
  intros Hs Ha Hc. destruct (decide (a = c)) as [<-|Hne].
  - rewrite _OrList_create_same. split; [done | by left].
  - rewrite _OrList_create_pair by done. simpl. split.
    + apply sound_alloc; [done|]. split; [|done]. apply Forall_forall.
      intros x. simpl. rewrite list_set_elem, !elem_of_cons, elem_of_nil.
      intros [-> | [-> | []]]; done.
    + right. split; [done|]. eexists. split; [apply body_of_alloc_new|].
      apply list_set_Permutation, NoDup_cons.
      split; [by rewrite list_elem_of_singleton | apply NoDup_singleton].
Qed.

Lemma isinstance_Filter_body h c :
  isinstance h (VRef c) Filter = true → is_Some (body_of h c).
Proof. intros Hc. by apply is_filter_body. Qed.

Lemma sound_Filter__and__ h self other : sound h → sound (Filter__and__ self other h).1.
Proof.
  intros Hs. unfold Filter__and__.
  destruct (isinstance h other Filter) eqn:Hf; simpl; [|done].
  destruct (isinstance h other Always); [done|].
  destruct (isinstance h other Never); [done|].
  destruct other as [| | | |c]; try done.
  destruct (and_cache_of h self) as [cache|] eqn:Hcache; [|done].
  destruct (cache !! c) as [r|]; [done|].
  destruct (sound_AndList_create h self c Hs) as [Hs1 Hp];
    [by eapply and_cache_of_body | by apply isinstance_Filter_body|].
  destruct (_AndList_create [self; c] h) as [h1 r]. simpl in *.
  by apply sound_set_and_cache.
Qed.

Lemma sound_Filter__or__ h self other : sound h → sound (Filter__or__ self other h).1.
Proof.
  intros Hs. unfold Filter__or__.
  destruct (isinstance h other Filter) eqn:Hf; simpl; [|done].
  destruct (isinstance h other Always); [done|].
  destruct (isinstance h other Never); [done|].
  destruct other as [| | | |c]; try done.
  destruct (or_cache_of h self) as [cache|] eqn:Hcache; [|done].
  destruct (cache !! c) as [r|]; [done|].
  destruct (sound_OrList_create h self c Hs) as [Hs1 Hp];
    [by eapply or_cache_of_body | by apply isinstance_Filter_body|].
  destruct (_OrList_create [self; c] h) as [h1 r]. simpl in *.
  by apply sound_set_or_cache.
Qed.

Lemma sound_Filter__invert__ h self : sound h → sound (Filter__invert__ self h).1.
Proof.
  intros Hs. unfold Filter__invert__.
  destruct (invert_result_of h self) as [[r|]|] eqn:Hir; simpl; [done| |done].
  apply sound_set_invert_result; [|apply body_of_alloc_new].
  apply sound_alloc; [done|]. split; [|done].
  apply Forall_singleton. by eapply invert_result_of_body.
Qed.

Lemma sound_exec h (p : op) : sound h → sound (exec p h).1.
Proof.
  intros Hs. destruct p as [| |func|self args|self other|self other|self]; simpl.
  - by apply sound_alloc.
  - by apply sound_alloc.
  - by apply sound_alloc.
  - unfold Condition__call__. destruct args; [|done].
    destruct (h !! self) as [[]|]; simpl; try done. by apply sound_alloc.
  - unfold py_and. destruct (type_at h self) as [k|]; [|done].
    destruct (resolve k m__and__) as [[]|]; simpl; auto using sound_Filter__and__.
  - unfold py_or. destruct (type_at h self) as [k|]; [|done].
    destruct (resolve k m__or__) as [[]|]; simpl; auto using sound_Filter__or__.
  - unfold py_invert. destruct (type_at h self) as [k|]; [|done].
    destruct (resolve k m__invert__) as [[]|]; simpl;
      auto using sound_Filter__invert__; by apply sound_alloc.
Qed.

Lemma reachable_sound h : reachable h → sound h.
Proof. induction 1; [apply sound_nil | by apply sound_exec]. Qed.

Lemma reachable_exec_fst h (p : op) h1 x :
  reachable h → exec p h = (h1, x) → reachable h1.
Proof.
  intros Hr Hp. replace h1 with (exec p h).1 by by rewrite Hp. by constructor.
Qed.

(** ** Evaluation only reads bodies *)

Lemma eval_kept h h1 e :
  sound h → keeps_bodies h h1 →
  ∀ n a, is_Some (body_of h a) → eval n h1 e a = eval n h e a.
Proof.
  intros Hs Hk n. induction n as [|n IH]; [done|]. intros a [b Hb]. simpl.
  rewrite (Hk a b Hb), Hb. pose proof (sound_children h Hs a b Hb) as Hch.
  destruct b as [fs|fs|c| | |f]; simpl in Hch; try done.
  - apply py_all_ext. eapply Forall_impl; [exact Hch|]. intros c Hc. by apply IH.
  - apply py_any_ext. eapply Forall_impl; [exact Hch|]. intros c Hc. by apply IH.
  - rewrite Forall_singleton in Hch. by rewrite IH.
Qed.

Lemma Filter__call__kept h h1 e a :
  sound h → keeps_bodies h h1 → is_Some (body_of h a) →
  Filter__call__ h1 e a = Filter__call__ h e a.
Proof. intros Hs Hk Ha. by apply eval_kept. Qed.

(** X8: once a filter exists, nothing the module does later changes its
    children or what it evaluates to: after any sequence of operations its
    body is the same, and calling it gives the same result and the same
    trace. *)
Theorem later_operations_keep_evaluation h ops e a :
  reachable h → is_filter h a →
  body_of (run ops h) a = body_of h a ∧
  Filter__call__ (run ops h) e a = Filter__call__ h e a.
Proof.
  intros Hr Ha. pose proof (proj1 (is_filter_body h a) Ha) as [b Hb].
  pose proof (keeps_bodies_run ops h) as Hk. split.
  - by rewrite Hb, (Hk a b Hb).
  - apply Filter__call__kept; [by apply reachable_sound | done | by exists b].
Qed.

(** ** What the operators build evaluates as the connective *)

Lemma Filter__call__Always h e a :
  body_of h a = Some B_Always → Filter__call__ h e a = ([], Ok true).
Proof. intros Hb. unfold Filter__call__. simpl. by rewrite Hb. Qed.

Lemma Filter__call__Never h e a :
  body_of h a = Some B_Never → Filter__call__ h e a = ([], Ok false).
Proof. intros Hb. unfold Filter__call__. simpl. by rewrite Hb. Qed.

Lemma type_at_body h a b : body_of h a = Some b → type_at h a = Some (class_of_body b).
Proof. intros (ac & oc & ir & Ha)%body_of_lookup. unfold type_at. by rewrite Ha. Qed.

Lemma result_map_negb_involutive (r : result bool) :
  result_map negb (result_map negb r) = r.
Proof. destruct r as [[]|]; done. Qed.

Lemma py_invert_eval h e a :
  reachable h → is_filter h a →
  ∃ h1 r, py_invert a h = (h1, Ok (VRef r)) ∧ reachable h1 ∧
          is_filter h1 r ∧ a < r ∧
          Filter__call__ h1 e r =
            ((Filter__call__ h e a).1, result_map negb (Filter__call__ h e a).2).
Proof.
  intros Hr Ha.
  assert (∀ h1 x, py_invert a h = (h1, x) → reachable h1) as Hreach.
  { intros h1 x Hx. by apply (reachable_exec_fst h (Op_invert a) h1 x). }
  destruct (is_constant h a) eqn:Hc.
  - unfold is_constant in Hc. apply orb_true_iff in Hc as [Hc|Hc].
    + apply isinstance_Always in Hc.
      assert (py_invert a h = (h ++ [Filter__init__ B_Never], Ok (VRef (List.length h))))
        as Hinv.
      { unfold py_invert. by rewrite (type_at_body h a _ Hc). }
      eexists _, _. split; [exact Hinv|]. split; [by eapply Hreach|].
      split; [apply is_filter_body; rewrite body_of_alloc_new; by eexists|].
      split; [apply body_of_lookup in Hc as (? & ? & ? & Hl); by eapply lookup_lt_heap|].
      rewrite (Filter__call__Always h e a Hc).
      apply Filter__call__Never, body_of_alloc_new.
    + apply isinstance_Never in Hc.
      assert (py_invert a h = (h ++ [Filter__init__ B_Always], Ok (VRef (List.length h))))
        as Hinv.
      { unfold py_invert. by rewrite (type_at_body h a _ Hc). }
      eexists _, _. split; [exact Hinv|]. split; [by eapply Hreach|].
      split; [apply is_filter_body; rewrite body_of_alloc_new; by eexists|].
      split; [apply body_of_lookup in Hc as (? & ? & ? & Hl); by eapply lookup_lt_heap|].
      rewrite (Filter__call__Never h e a Hc).
      apply Filter__call__Always, body_of_alloc_new.
  - destruct (py_invert_first h a Ha Hc) as (h1 & r & H1 & Hir & Hk).
    pose proof (Hreach h1 _ H1) as Hr1.
    pose proof (sound_invert h1 (reachable_sound h1 Hr1) a r Hir) as Hb.
    pose proof (wf_children h1 (reachable_wf h1 Hr1) r _ Hb) as Hlt.
    simpl in Hlt. rewrite Forall_singleton in Hlt.
    exists h1, r. split; [done|]. split; [done|].
    split; [apply is_filter_body; by eexists|]. split; [done|].
    rewrite (Filter__call__Invert h1 e r a (reachable_wf h1 Hr1) Hb).
    rewrite (Filter__call__kept h h1 e a); [done | by apply reachable_sound | |
      by apply is_filter_body].
    replace h1 with (exec (Op_invert a) h).1 by (simpl; by rewrite H1).
    apply keeps_bodies_exec.
Qed.

(** X1: for every filter [a] of a reachable store, [~a] is a filter that
    calls exactly the leaves [a] calls and returns the negated result; an
    exception raised under [a] comes out of [~a] unchanged. *)
Theorem invert_evaluates_as_negation h e a :
  reachable h → is_filter h a →
  ∃ h1 r, py_invert a h = (h1, Ok (VRef r)) ∧ is_filter h1 r ∧
          Filter__call__ h1 e r =
            ((Filter__call__ h e a).1, result_map negb (Filter__call__ h e a).2).
Proof.
  intros Hr Ha.
  destruct (py_invert_eval h e a Hr Ha) as (h1 & r & H1 & _ & Hf & _ & Hev).
  by exists h1, r.
Qed.

(** X2: [~~a] is never the object [a] (the negation of a negation is a new
    node, or a new constant), yet it evaluates exactly as [a] does: same
    leaves called, same result or exception. *)
Theorem double_negation h e a :
  reachable h → is_filter h a →
  ∃ h1 r1 h2 r2,
    py_invert a h = (h1, Ok (VRef r1)) ∧
    py_invert r1 h1 = (h2, Ok (VRef r2)) ∧
    r2 ≠ a ∧ r2 ≠ r1 ∧
    Filter__call__ h2 e r2 = Filter__call__ h e a.
Proof.
  intros Hr Ha.
  destruct (py_invert_eval h e a Hr Ha) as (h1 & r1 & H1 & Hr1 & Hf1 & Hlt1 & Hev1).
  destruct (py_invert_eval h1 e r1 Hr1 Hf1) as (h2 & r2 & H2 & Hr2 & Hf2 & Hlt2 & Hev2).
  exists h1, r1, h2, r2. split; [done|]. split; [done|].
  split; [lia|]. split; [lia|].
  rewrite Hev2, Hev1. simpl. rewrite result_map_negb_involutive.
  by destruct (Filter__call__ h e a).
Qed.

Lemma py_all_pair (call : addr → trace * result bool) fs a c va vc :
  fs ≡ₚ [a; c] → (call a).2 = Ok va → (call c).2 = Ok vc →
  (py_all call fs).2 = Ok (va && vc).
Proof.
  intros Hp Ha Hc. symmetry in Hp.
  apply Permutation_length_2_inv in Hp as [-> | ->]; simpl;
    destruct (call a) as [ta ra]; destruct (call c) as [tc rc];
    simpl in *; subst; by destruct va, vc.
Qed.

Lemma py_any_pair (call : addr → trace * result bool) fs a c va vc :
  fs ≡ₚ [a; c] → (call a).2 = Ok va → (call c).2 = Ok vc →
  (py_any call fs).2 = Ok (va || vc).
Proof.
  intros Hp Ha Hc. symmetry in Hp.
  apply Permutation_length_2_inv in Hp as [-> | ->]; simpl;
    destruct (call a) as [ta ra]; destruct (call c) as [tc rc];
    simpl in *; subst; by destruct va, vc.
Qed.

Lemma Filter__and__constant_r h a c :
  is_filter h c →
  (isinstance h (VRef c) Always = true →
     Filter__and__ a (VRef c) h = (h, Ok (VRef a))) ∧
  (isinstance h (VRef c) Never = true →
     Filter__and__ a (VRef c) h = (h, Ok (VRef c))).
Proof.
  intros Hc. unfold is_filter in Hc. unfold Filter__and__. rewrite Hc.
  split; intros Hk.
  - by rewrite Hk.
  - destruct (isinstance h (VRef c) Always) eqn:Ha; [|by rewrite Hk].
    apply isinstance_Always in Ha. apply isinstance_Never in Hk. congruence.
Qed.

Lemma Filter__or__constant_r h a c :
  is_filter h c →
  (isinstance h (VRef c) Always = true →
     Filter__or__ a (VRef c) h = (h, Ok (VRef c))) ∧
  (isinstance h (VRef c) Never = true →
     Filter__or__ a (VRef c) h = (h, Ok (VRef a))).
Proof.
  intros Hc. unfold is_filter in Hc. unfold Filter__or__. rewrite Hc.
  split; intros Hk.
  - by rewrite Hk.
  - destruct (isinstance h (VRef c) Always) eqn:Ha; [|by rewrite Hk].
    apply isinstance_Always in Ha. apply isinstance_Never in Hk. congruence.
Qed.

Lemma py_and_eval h e a c va vc :
  reachable h → is_filter h a → is_filter h c →
  (Filter__call__ h e a).2 = Ok va → (Filter__call__ h e c).2 = Ok vc →
  ∃ h1 r, py_and a (VRef c) h = (h1, Ok (VRef r)) ∧ reachable h1 ∧
          is_filter h1 r ∧ (Filter__call__ h1 e r).2 = Ok (va && vc).
Proof.
  intros Hr Ha Hc Hva Hvc.
  assert (∀ h1 x, py_and a (VRef c) h = (h1, x) → reachable h1) as Hreach.
  { intros h1 x Hx. by apply (reachable_exec_fst h (Op_and a (VRef c)) h1 x). }
  destruct (isinstance h (VRef a) Never) eqn:Han.
  { apply isinstance_Never in Han.
    rewrite (Filter__call__Never h e a Han) in Hva. injection Hva as <-.
    exists h, a. rewrite (py_and_Never h a _ (type_at_body h a _ Han)).
    split; [done|]. split; [done|]. split; [done|].
    by rewrite (Filter__call__Never h e a Han). }
  rewrite (py_and_base h a _ Ha Han) in *.
  destruct (Filter__and__constant_r h a c Hc) as [HA HN].
  destruct (isinstance h (VRef c) Always) eqn:Hca.
  { rewrite (HA eq_refl). apply isinstance_Always in Hca.
    rewrite (Filter__call__Always h e c Hca) in Hvc. injection Hvc as <-.
    exists h, a. rewrite andb_true_r. done. }
  destruct (isinstance h (VRef c) Never) eqn:Hcn.
  { rewrite (HN eq_refl). apply isinstance_Never in Hcn.
    pose proof Hvc as Hvc'.
    rewrite (Filter__call__Never h e c Hcn) in Hvc. injection Hvc as <-.
    exists h, c. rewrite andb_false_r. done. }
  assert (is_constant h c = false) as Hcc by (unfold is_constant; by rewrite Hca, Hcn).
  destruct (Filter__and__twice h a c Ha Hc Hcc) as (h1 & r & H1 & Hk & Hcache & _).
  pose proof (Hreach h1 _ H1) as Hr1.
  assert (keeps_bodies h h1) as Hkb.
  { replace h1 with (exec (Op_and a (VRef c)) h).1.
    - apply keeps_bodies_exec.
    - simpl. by rewrite (py_and_base h a _ Ha Han), H1. }
  assert (Filter__call__ h1 e a = Filter__call__ h e a) as Hea
    by (apply Filter__call__kept; [by apply reachable_sound | done | by apply is_filter_body]).
  assert (Filter__call__ h1 e c = Filter__call__ h e c) as Hec
    by (apply Filter__call__kept; [by apply reachable_sound | done | by apply is_filter_body]).
  exists h1, r. split; [done|]. split; [done|].
  destruct (and_cache_of h1 a) as [ac|] eqn:Hac; [|done]. simpl in Hcache.
  destruct (sound_and h1 (reachable_sound h1 Hr1) a ac c r Hac Hcache)
    as [[-> ->] | (Hne & fs & Hb & Hp)].
  - split; [by eapply is_filter_keeps|]. rewrite Hea, Hva.
    rewrite Hva in Hvc. injection Hvc as <-. by rewrite andb_diag.
  - split; [apply is_filter_body; by eexists|].
    rewrite (Filter__call__AndList h1 e r fs (reachable_wf h1 Hr1) Hb).
    apply py_all_pair with (a := a) (c := c); [done | by rewrite Hea | by rewrite Hec].
Qed.

Lemma py_or_eval h e a c va vc :
  reachable h → is_filter h a → is_filter h c →
  (Filter__call__ h e a).2 = Ok va → (Filter__call__ h e c).2 = Ok vc →
  ∃ h1 r, py_or a (VRef c) h = (h1, Ok (VRef r)) ∧ reachable h1 ∧
          is_filter h1 r ∧ (Filter__call__ h1 e r).2 = Ok (va || vc).
Proof.
  intros Hr Ha Hc Hva Hvc.
  assert (∀ h1 x, py_or a (VRef c) h = (h1, x) → reachable h1) as Hreach.
  { intros h1 x Hx. by apply (reachable_exec_fst h (Op_or a (VRef c)) h1 x). }
  destruct (isinstance h (VRef a) Always) eqn:Haa.
  { apply isinstance_Always in Haa.
    rewrite (Filter__call__Always h e a Haa) in Hva. injection Hva as <-.
    exists h, a. rewrite (py_or_Always h a _ (type_at_body h a _ Haa)).
    split; [done|]. split; [done|]. split; [done|].
    by rewrite (Filter__call__Always h e a Haa). }
  rewrite (py_or_base h a _ Ha Haa) in *.
  destruct (Filter__or__constant_r h a c Hc) as [HA HN].
  destruct (isinstance h (VRef c) Always) eqn:Hca.
  { rewrite (HA eq_refl). apply isinstance_Always in Hca.
    pose proof Hvc as Hvc'.
    rewrite (Filter__call__Always h e c Hca) in Hvc. injection Hvc as <-.
    exists h, c. rewrite orb_true_r. done. }
  destruct (isinstance h (VRef c) Never) eqn:Hcn.
  { rewrite (HN eq_refl). apply isinstance_Never in Hcn.
    rewrite (Filter__call__Never h e c Hcn) in Hvc. injection Hvc as <-.
    exists h, a. rewrite orb_false_r. done. }
  assert (is_constant h c = false) as Hcc by (unfold is_constant; by rewrite Hca, Hcn).
  destruct (Filter__or__twice h a c Ha Hc Hcc) as (h1 & r & H1 & Hk & Hcache & _).
  pose proof (Hreach h1 _ H1) as Hr1.
  assert (keeps_bodies h h1) as Hkb.
  { replace h1 with (exec (Op_or a (VRef c)) h).1.
    - apply keeps_bodies_exec.
    - simpl. by rewrite (py_or_base h a _ Ha Haa), H1. }
  assert (Filter__call__ h1 e a = Filter__call__ h e a) as Hea
    by (apply Filter__call__kept; [by apply reachable_sound | done | by apply is_filter_body]).
  assert (Filter__call__ h1 e c = Filter__call__ h e c) as Hec
    by (apply Filter__call__kept; [by apply reachable_sound | done | by apply is_filter_body]).
  exists h1, r. split; [done|]. split; [done|].
  destruct (or_cache_of h1 a) as [oc|] eqn:Hoc; [|done]. simpl in Hcache.
  destruct (sound_or h1 (reachable_sound h1 Hr1) a oc c r Hoc Hcache)
    as [[-> ->] | (Hne & fs & Hb & Hp)].
  - split; [by eapply is_filter_keeps|]. rewrite Hea, Hva.
    rewrite Hva in Hvc. injection Hvc as <-. by rewrite orb_diag.
  - split; [apply is_filter_body; by eexists|].
    rewrite (Filter__call__OrList h1 e r fs (reachable_wf h1 Hr1) Hb).
    apply py_any_pair with (a := a) (c := c); [done | by rewrite Hea | by rewrite Hec].
Qed.

(** X3: whatever path [a & c] takes (constant absorbed, cache hit, new
    node, either order of the set), the filter it returns evaluates to the
    conjunction: if [a()] returns [va] and [c()] returns [vc], the result
    returns [va and vc]. *)
Theorem and_evaluates_as_conjunction h e a c va vc :
  reachable h → is_filter h a → is_filter h c →
  (Filter__call__ h e a).2 = Ok va → (Filter__call__ h e c).2 = Ok vc →
  ∃ h1 r, py_and a (VRef c) h = (h1, Ok (VRef r)) ∧ is_filter h1 r ∧
          (Filter__call__ h1 e r).2 = Ok (va && vc).
Proof.
  intros Hr Ha Hc Hva Hvc.
  destruct (py_and_eval h e a c va vc Hr Ha Hc Hva Hvc) as (h1 & r & H1 & _ & Hf & Hev).
  by exists h1, r.
Qed.

(** X4: likewise the filter [a | c] returns evaluates to the disjunction:
    if [a()] returns [va] and [c()] returns [vc], it returns [va or vc]. *)
Theorem or_evaluates_as_disjunction h e a c va vc :
  reachable h → is_filter h a → is_filter h c →
  (Filter__call__ h e a).2 = Ok va → (Filter__call__ h e c).2 = Ok vc →
  ∃ h1 r, py_or a (VRef c) h = (h1, Ok (VRef r)) ∧ is_filter h1 r ∧
          (Filter__call__ h1 e r).2 = Ok (va || vc).
Proof.
  intros Hr Ha Hc Hva Hvc.
  destruct (py_or_eval h e a c va vc Hr Ha Hc Hva Hvc) as (h1 & r & H1 & _ & Hf & Hev).
  by exists h1, r.
Qed.

(** ** Misuse *)


(** ** The wrapper *)

(** X10: calling a [Condition] wrapper with any argument raises
    [ValueError] and changes nothing; calling it without arguments never
    returns an existing object: each call allocates a new leaf over the
    same callback, so two calls give two different filters that evaluate
    alike, and [&] between them finds nothing to deduplicate and builds an
    [_AndList] over both. *)
Theorem Condition_call_allocates_each_time h w (func : callback) e :
  h !! w = Some (ConditionObj func) →
  let l1 := List.length h in
  let l2 := S (List.length h) in
  (∀ v args, Condition__call__ w (v :: args) h = (h, Raise (ValueError no_arguments))) ∧
  ∃ h1 h2 h3,
    Condition__call__ w [] h = (h1, Ok (VRef l1)) ∧
    Condition__call__ w [] h1 = (h2, Ok (VRef l2)) ∧
    Filter__call__ h2 e l1 = ([l1], func e) ∧
    Filter__call__ h2 e l2 = ([l2], func e) ∧
    py_and l1 (VRef l2) h2 = (h3, Ok (VRef (S l2))) ∧
    body_of h3 (S l2) = Some (B_AndList (list_set [l1; l2])).
Proof.
  intros Hw l1 l2. split; [done|].
  set (leaf := Filter__init__ (B_Condition func)).
  set (h1 := h ++ [leaf]). set (h2 := h1 ++ [leaf]).
  assert (List.length h1 = l2) as Hlen1 by apply length_alloc.
  assert (List.length h2 = S l2) as Hlen2 by (unfold h2; by rewrite length_alloc, Hlen1).
  assert (h1 !! w = Some (ConditionObj func)) as Hw1 by by apply lookup_alloc_old.
  assert (h2 !! l1 = Some leaf) as Hl1
    by (apply lookup_alloc_old, lookup_alloc_new).
  assert (h2 !! l2 = Some leaf) as Hl2
    by (rewrite <- Hlen1; apply lookup_alloc_new).
  assert (body_of h2 l1 = Some (B_Condition func)) as Hb1
    by (unfold body_of; by rewrite Hl1).
  assert (body_of h2 l2 = Some (B_Condition func)) as Hb2
    by (unfold body_of; by rewrite Hl2).
  exists h1, h2. eexists.
  split; [unfold Condition__call__; by rewrite Hw|].
  split; [unfold Condition__call__; rewrite Hw1; simpl; by rewrite Hlen1|].
  split; [by apply Filter__call__leaf|]. split; [by apply Filter__call__leaf|].
  assert (is_filter h2 l1) as Hf1 by (apply is_filter_body; by eexists).
  assert (is_filter h2 l2) as Hf2 by (apply is_filter_body; by eexists).
  assert (is_constant h2 l2 = false) as Hc2.
  { unfold is_constant. simpl. unfold type_at. by rewrite Hl2. }
  split.
  - rewrite (py_and_base h2 l1 _ Hf1).
    + rewrite (Filter__and__miss h2 l1 l2 ∅); [|done|done| |done].
      * rewrite _AndList_create_pair by (unfold l1, l2; lia). simpl.
        by rewrite Hlen2.
      * unfold and_cache_of. by rewrite Hl1.
    + simpl. unfold type_at. by rewrite Hl1.
  - rewrite body_of_set_and_cache. rewrite <- Hlen2. apply body_of_alloc_new.
Qed.

(** ** One cache per direction *)

Lemma and_cache_miss h a c :
  is_filter h a → and_cache_of h a ≫= (.!! c) = None →
  ∃ ac, and_cache_of h a = Some ac ∧ ac !! c = None.
Proof.
  intros (b & ac & oc & ir & Ha)%is_filter_lookup. unfold and_cache_of.
  rewrite Ha. simpl. eauto.
Qed.

(** X7: the cache of [&] belongs to the left operand.  For two different
    filters, neither a constant, combined for the first time,
    [a & c] and then [c & a] allocate two nodes: the second call does not
    find the first result and returns a different object over the same two
    children. *)
Theorem and_is_cached_per_direction h a c :
  is_filter h a → is_filter h c → a ≠ c →
  is_constant h a = false → is_constant h c = false →
  and_cache_of h a ≫= (.!! c) = None →
  and_cache_of h c ≫= (.!! a) = None →
  ∃ h1 h2,
    py_and a (VRef c) h = (h1, Ok (VRef (List.length h))) ∧
    py_and c (VRef a) h1 = (h2, Ok (VRef (S (List.length h)))) ∧
    body_of h2 (List.length h) = Some (B_AndList (list_set [a; c])) ∧
    body_of h2 (S (List.length h)) = Some (B_AndList (list_set [c; a])).
Proof.
  intros Ha Hc Hne Hac Hcc Hma Hmc.
  destruct (and_cache_miss h a c Ha Hma) as (ac & Haca & Hacm).
  destruct (and_cache_miss h c a Hc Hmc) as (cc & Hcca & Hccm).
  pose proof (is_constant_false h a Hac) as [_ Han].
  pose proof (is_constant_false h c Hcc) as [_ Hcn].
  set (n1 := Filter__init__ (B_AndList (list_set [a; c]))).
  set (h1 := alter (set_and_cache c (List.length h)) a (h ++ [n1])).
  assert (py_and a (VRef c) h = (h1, Ok (VRef (List.length h)))) as H1.
  { rewrite (py_and_base h a _ Ha Han), (Filter__and__miss h a c ac) by done.
    by rewrite _AndList_create_pair. }
  assert (keeps_classes h h1) as Hk.
  { eapply keeps_classes_trans; [apply keeps_classes_alloc|].
    apply keeps_classes_alter, class_of_set_and_cache. }
  assert (List.length h1 = S (List.length h)) as Hlen
    by (unfold h1; by rewrite length_alter, length_alloc).
  assert (and_cache_of h1 c = Some cc) as Hcca1.
  { unfold and_cache_of, h1. rewrite list_lookup_alter_ne by done.
    unfold and_cache_of in Hcca. destruct (h !! c) as [x|] eqn:Hx; [|done].
    by rewrite (lookup_alloc_old n1 h c x Hx). }
  set (n2 := Filter__init__ (B_AndList (list_set [c; a]))).
  exists h1. eexists. split; [done|]. split; [|split].
  - rewrite (py_and_base h1 c _ (is_filter_keeps h h1 c Hk Hc)).
    + rewrite (Filter__and__miss h1 c a cc);
        [| by eapply is_filter_keeps | by rewrite (is_constant_keeps h) | done | done].
      rewrite _AndList_create_pair by done. simpl. by rewrite Hlen.
    + by rewrite (keeps_classes_isinstance h h1 c Never Hk (is_filter_type h c Hc)).
  - rewrite body_of_set_and_cache. apply keeps_bodies_alloc.
    unfold h1. rewrite body_of_set_and_cache. apply body_of_alloc_new.
  - rewrite body_of_set_and_cache, <- Hlen. apply body_of_alloc_new.
Qed.

(** ** The order of the children *)

(** X11: which operand of [a & c] is called first is decided by the
    iteration order of the set, not by the order of the operands.  With
    [a] a leaf that returns [False] and [c] a leaf that raises, the filter
    [a & c] returns holds both as children in one of the two orders:
    in the order [a, c] it returns [False] and never calls [c]; in the
    order [c, a] it raises and never calls [a]. *)
Theorem and_order_follows_the_set h e a c (fa fc : callback) ex :
  reachable h →
  body_of h a = Some (B_Condition fa) → body_of h c = Some (B_Condition fc) →
  a ≠ c → fa e = Ok false → fc e = Raise ex →
  ∃ h1 r fs,
    py_and a (VRef c) h = (h1, Ok (VRef r)) ∧
    body_of h1 r = Some (B_AndList fs) ∧
    ((fs = [a; c] ∧ Filter__call__ h1 e r = ([a], Ok false)) ∨
     (fs = [c; a] ∧ Filter__call__ h1 e r = ([c], Raise ex))).
Proof.
  intros Hr Hba Hbc Hne Hfa Hfc.
  assert (is_filter h a) as Ha by (apply is_filter_body; by eexists).
  assert (is_filter h c) as Hc by (apply is_filter_body; by eexists).
  assert (is_constant h a = false) as Hac.
  { unfold is_constant. simpl. by rewrite (type_at_body h a _ Hba). }
  assert (is_constant h c = false) as Hcc.
  { unfold is_constant. simpl. by rewrite (type_at_body h c _ Hbc). }
  pose proof (is_constant_false h a Hac) as [_ Han].
  destruct (Filter__and__twice h a c Ha Hc Hcc) as (h1 & r & H1 & Hk & Hcache & _).
  assert (py_and a (VRef c) h = (h1, Ok (VRef r))) as Hand
    by by rewrite (py_and_base h a _ Ha Han).
  pose proof (reachable_exec_fst h (Op_and a (VRef c)) h1 _ Hr Hand) as Hr1.
  assert (keeps_bodies h h1) as Hkb.
  { replace h1 with (exec (Op_and a (VRef c)) h).1 by (simpl; by rewrite Hand).
    apply keeps_bodies_exec. }
  destruct (and_cache_of h1 a) as [ac|] eqn:Hac1; [|done]. simpl in Hcache.
  destruct (sound_and h1 (reachable_sound h1 Hr1) a ac c r Hac1 Hcache)
    as [[? _] | (_ & fs & Hb & Hp)]; [done|].
  exists h1, r, fs. split; [done|]. split; [done|].
  rewrite (Filter__call__AndList h1 e r fs (reachable_wf h1 Hr1) Hb).
  pose proof (Filter__call__leaf h1 e a fa (Hkb a _ Hba)) as Hla.
  pose proof (Filter__call__leaf h1 e c fc (Hkb c _ Hbc)) as Hlc.
  symmetry in Hp. apply Permutation_length_2_inv in Hp as [-> | ->]; simpl.
  - left. by rewrite Hla, Hfa.
  - right. by rewrite Hlc, Hfc.
Qed.

(** ** [_AndList.create] and [_OrList.create] on any list *)

(** X5: [create] deduplicates by identity.  Of an empty list it makes a
    new [Always()] (a new [Never()] for [_OrList]); of a list whose
    members are all one filter it returns that filter and allocates
    nothing; of a list with two different members it allocates one node
    whose children have no duplicates and are exactly the members of the
    list. *)
Theorem create_deduplicates h l :
  (l = [] →
     _AndList_create l h = (h ++ [Filter__init__ B_Always], List.length h) ∧
     _OrList_create l h = (h ++ [Filter__init__ B_Never], List.length h)) ∧
  (∀ x, x ∈ l → (∀ y, y ∈ l → y = x) →
     _AndList_create l h = (h, x) ∧ _OrList_create l h = (h, x)) ∧
  (∀ x y, x ∈ l → y ∈ l → x ≠ y →
     ∃ fs, NoDup fs ∧ (∀ z, z ∈ fs ↔ z ∈ l) ∧
       _AndList_create l h = (h ++ [Filter__init__ (B_AndList fs)], List.length h) ∧
       _OrList_create l h = (h ++ [Filter__init__ (B_OrList fs)], List.length h)).
Proof.
  pose proof (list_set_NoDup l) as Hnd. pose proof (list_set_elem l) as Hel.
  unfold _AndList_create, _OrList_create.
  destruct (list_set l) as [|u [|v fs]] eqn:Hls.
  - split; [done|]. split.
    + intros x Hx _. apply Hel in Hx. by apply elem_of_nil in Hx.
    + intros x y Hx _ _. apply Hel in Hx. by apply elem_of_nil in Hx.
  - split; [|split].
    + intros ->. assert (u ∈ ([] : list addr)) as Hu by (apply Hel; by left).
      by apply elem_of_nil in Hu.
    + intros x Hx Hall. assert (u = x) as -> by (apply Hall, Hel; by left). done.
    + intros x y Hx%Hel Hy%Hel Hxy.
      apply list_elem_of_singleton in Hx, Hy. congruence.
  - split; [|split].
    + intros ->. assert (u ∈ ([] : list addr)) as Hu by (apply Hel; by left).
      by apply elem_of_nil in Hu.
    + intros x Hx Hall.
      assert (u = x) as -> by (apply Hall, Hel; by left).
      assert (v = x) as -> by (apply Hall, Hel; right; by left).
      apply NoDup_cons in Hnd as [Hnin _]. exfalso. apply Hnin. by left.
    + intros x y _ _ _. exists (u :: v :: fs). done.
Qed.

Lemma create_lt h l :
  Forall (λ c, is_Some (body_of h c)) l →
  Forall (λ c, c < List.length h) (list_set l).
Proof.
  rewrite !Forall_forall. intros Hl c Hc. apply (proj1 (list_set_elem l c)) in Hc.
  destruct (Hl c Hc) as [b Hb].
  apply body_of_lookup in Hb as (? & ? & ? & Hb). by eapply lookup_lt_heap.
Qed.

Lemma wf_AndList_create_list h l :
  wf h → Forall (λ c, is_Some (body_of h c)) l → wf (_AndList_create l h).1.
Proof.
  intros Hwf Hl. pose proof (create_lt h l Hl) as Hlt. unfold _AndList_create.
  destruct (list_set l) as [|u [|v fs]]; simpl; [by apply wf_alloc | done |].
  by apply wf_alloc.
Qed.

Lemma wf_OrList_create_list h l :
  wf h → Forall (λ c, is_Some (body_of h c)) l → wf (_OrList_create l h).1.
Proof.
  intros Hwf Hl. pose proof (create_lt h l Hl) as Hlt. unfold _OrList_create.
  destruct (list_set l) as [|u [|v fs]]; simpl; [by apply wf_alloc | done |].
  by apply wf_alloc.
Qed.

(** X6: the filter [_AndList.create(filters)] returns is true exactly when
    every filter of the list is true, also for the empty list and for a
    list that collapses to one filter; the filter [_OrList.create(filters)]
    returns is true, when the filters return booleans, exactly when one of
    them is true. *)
Theorem create_evaluates_as_all_and_any h e l :
  reachable h → Forall (is_filter h) l →
  (∃ h1 r, _AndList_create l h = (h1, r) ∧ is_filter h1 r ∧
     ((Filter__call__ h1 e r).2 = Ok true ↔
      Forall (λ c, (Filter__call__ h e c).2 = Ok true) l)) ∧
  (Forall (λ c, ∃ v, (Filter__call__ h e c).2 = Ok v) l →
   ∃ h1 r, _OrList_create l h = (h1, r) ∧ is_filter h1 r ∧
     ((Filter__call__ h1 e r).2 = Ok true ↔
      Exists (λ c, (Filter__call__ h e c).2 = Ok true) l)).
Proof.
  intros Hr Hl. pose proof (reachable_wf h Hr) as Hwf.
  pose proof (reachable_sound h Hr) as Hs.
  assert (Forall (λ c, is_Some (body_of h c)) l) as Hl'.
  { eapply Forall_impl; [exact Hl|]. intros c Hc. by apply is_filter_body. }
  pose proof (list_set_elem l) as Hel.
  assert (∀ c, c ∈ list_set l → is_Some (body_of h c)) as Hsome.
  { intros c Hc%Hel. rewrite Forall_forall in Hl'. by apply Hl'. }
  split.
  - pose proof (wf_AndList_create_list h l Hwf Hl') as Hwf1.
    pose proof (keeps_bodies_of_lookup h _ (_AndList_create_old l h)) as Hk.
    revert Hwf1 Hk. unfold _AndList_create.
    destruct (list_set l) as [|u [|v fs]] eqn:Hls; simpl; intros Hwf1 Hk.
    + eexists _, _. split; [done|].
      split; [apply is_filter_body; rewrite body_of_alloc_new; by eexists|].
      rewrite (Filter__call__Always _ e _ (body_of_alloc_new h B_Always)).
      split; [|done]. intros _. apply Forall_forall.
      intros c Hc%Hel. by apply elem_of_nil in Hc.
    + exists h, u. split; [done|].
      split; [apply is_filter_body, Hsome; by left|].
      rewrite Forall_forall. split.
      * intros Hu c Hc%Hel. by apply list_elem_of_singleton in Hc as ->.
      * intros Hall. apply Hall, Hel. by left.
    + eexists _, _. split; [done|].
      split; [apply is_filter_body; rewrite body_of_alloc_new; by eexists|].
      rewrite (Filter__call__AndList _ e _ _ Hwf1 (body_of_alloc_new h _)).
      rewrite py_all_true, !Forall_forall. split.
      * intros Hall c Hc%Hel. rewrite <- (Filter__call__kept h _ e c Hs Hk); auto.
      * intros Hall c Hc. rewrite (Filter__call__kept h _ e c Hs Hk); auto.
        apply Hall. by apply Hel.
  - intros Hbool.
    pose proof (wf_OrList_create_list h l Hwf Hl') as Hwf1.
    pose proof (keeps_bodies_of_lookup h _ (_OrList_create_old l h)) as Hk.
    revert Hwf1 Hk. unfold _OrList_create.
    destruct (list_set l) as [|u [|v fs]] eqn:Hls; simpl; intros Hwf1 Hk.
    + eexists _, _. split; [done|].
      split; [apply is_filter_body; rewrite body_of_alloc_new; by eexists|].
      rewrite (Filter__call__Never _ e _ (body_of_alloc_new h B_Never)).
      split; [done|]. intros (c & Hc%Hel & _)%Exists_exists.
      by apply elem_of_nil in Hc.
    + exists h, u. split; [done|].
      split; [apply is_filter_body, Hsome; by left|].
      rewrite Exists_exists. split.
      * intros Hu. exists u. split; [apply Hel; by left | done].
      * intros (c & Hc%Hel & Hv). by apply list_elem_of_singleton in Hc as ->.
    + eexists _, _. split; [done|].
      split; [apply is_filter_body; rewrite body_of_alloc_new; by eexists|].
      rewrite (Filter__call__OrList _ e _ _ Hwf1 (body_of_alloc_new h _)).
      rewrite py_any_true_bool, !Exists_exists.
      * split; intros (c & Hc & Hv); exists c.
        -- split; [by apply Hel|]. rewrite <- (Filter__call__kept h _ e c Hs Hk); auto.
        -- apply Hel in Hc. split; [done|].
           rewrite (Filter__call__kept h _ e c Hs Hk); auto.
      * apply Forall_forall. intros c Hc.
        rewrite (Filter__call__kept h _ e c Hs Hk) by auto.
        rewrite Forall_forall in Hbool. by apply Hbool, Hel.
Qed.

End MoreFacts.

(** * Quoting file names ([SystemCompleter]) *)

Section Quoting.

Variables q bs : Ascii.ascii.
Hypothesis q_not_bs : q ≠ bs.

Lemma prefix_empty s : String.prefix EmptyString s = true.
Proof. by destruct s. Qed.

Lemma escape_cons c s :
  replace_from (str1 q) (str2 bs q) 0 (String c s) =
    if Ascii.ascii_dec q c
    then String bs (String q (replace_from (str1 q) (str2 bs q) 0 s))
    else String c (replace_from (str1 q) (str2 bs q) 0 s).
Proof.
  simpl. destruct (Ascii.ascii_dec q c); [|done]. by rewrite prefix_empty.
Qed.

(** Escaped text never starts with a bare quote. *)
Lemma escape_no_leading_quote s :
  String.prefix (str1 q) (replace_from (str1 q) (str2 bs q) 0 s) = false.
Proof.
  destruct s as [|c s]; [done|]. rewrite escape_cons.
  destruct (Ascii.ascii_dec q c) as [<-|Hne]; simpl.
  - by destruct (Ascii.ascii_dec q bs).
  - by destruct (Ascii.ascii_dec q c).
Qed.

Lemma unescape_pair t :
  replace_from (str2 bs q) (str1 q) 0 (String bs (String q t)) =
    String q (replace_from (str2 bs q) (str1 q) 0 t).
Proof.
  simpl. destruct (Ascii.ascii_dec bs bs); [|done].
  destruct (Ascii.ascii_dec q q); [|done]. by rewrite prefix_empty.
Qed.

Lemma unescape_other c t :
  String.prefix (str1 q) t = false →
  replace_from (str2 bs q) (str1 q) 0 (String c t) =
    String c (replace_from (str2 bs q) (str1 q) 0 t).
Proof.
  intros Ht. unfold str1, str2 in *. simpl.
  destruct (Ascii.ascii_dec bs c); [|done]. by rewrite Ht.
Qed.

Lemma unescape_escape s :
  replace_from (str2 bs q) (str1 q) 0 (replace_from (str1 q) (str2 bs q) 0 s) = s.
Proof.
  induction s as [|c s IH]; [done|]. rewrite escape_cons.
  destruct (Ascii.ascii_dec q c) as [<-|Hne].
  - by rewrite unescape_pair, IH.
  - rewrite unescape_other by apply escape_no_leading_quote. by rewrite IH.
Qed.

End Quoting.

(** X12: unescaping undoes escaping, for every file name and both kinds of
    quotes: [unescape(escape(s)) == s].  The converse fails: a bare quote
    is unchanged by unescaping and then escaped into two characters. *)
Theorem unescape_escape_filename s :
  unescape_double_quoted_filename (escape_double_quoted_filename s) = s ∧
  unescape_single_quoted_filename (escape_single_quoted_filename s) = s ∧
  escape_double_quoted_filename (unescape_double_quoted_filename (str1 dquote))
    = str2 backslash dquote ∧
  escape_single_quoted_filename (unescape_single_quoted_filename (str1 squote))
    = str2 backslash squote.
Proof.
  split; [|split; [|split]].
  - by apply (unescape_escape dquote backslash).
  - by apply (unescape_escape squote backslash).
  - reflexivity.
  - reflexivity.
Qed.

(** * The further facts on the sample store *)

Lemma later_operations_keep_evaluation_witness :
  body_of (run (PS := first_seen) [Op_invert 8; Op_and 3 (VRef 7)] sample_heap) 8
    = body_of sample_heap 8 ∧
  Filter__call__ (run (PS := first_seen) [Op_invert 8; Op_and 3 (VRef 7)] sample_heap) ∅ 8
    = Filter__call__ sample_heap ∅ 8.
Proof.
  apply (later_operations_keep_evaluation (PS := first_seen) sample_heap
           [Op_invert 8; Op_and 3 (VRef 7)] ∅ 8).
  - apply (reachable_run (PS := first_seen)), reachable_init.
  - reflexivity.
Defined.

Lemma invert_evaluates_as_negation_witness :
  ∃ h1 r, py_invert 8 sample_heap = (h1, Ok (VRef r)) ∧ is_filter h1 r ∧
          Filter__call__ h1 ∅ r =
            ((Filter__call__ sample_heap ∅ 8).1,
             result_map negb (Filter__call__ sample_heap ∅ 8).2).
Proof.
  apply (invert_evaluates_as_negation (PS := first_seen) sample_heap ∅ 8).
  - apply (reachable_run (PS := first_seen)), reachable_init.
  - reflexivity.
Defined.

Lemma double_negation_witness :
  ∃ h1 r1 h2 r2,
    py_invert 3 sample_heap = (h1, Ok (VRef r1)) ∧
    py_invert r1 h1 = (h2, Ok (VRef r2)) ∧
    r2 ≠ 3 ∧ r2 ≠ r1 ∧
    Filter__call__ h2 ∅ r2 = Filter__call__ sample_heap ∅ 3.
Proof.
  apply (double_negation (PS := first_seen) sample_heap ∅ 3).
  - apply (reachable_run (PS := first_seen)), reachable_init.
  - reflexivity.
Defined.

Lemma and_evaluates_as_conjunction_witness :
  ∃ h1 r, py_and (PS := first_seen) 3 (VRef 7) sample_heap = (h1, Ok (VRef r)) ∧
          is_filter h1 r ∧ (Filter__call__ h1 ∅ r).2 = Ok (false && true).
Proof.
  apply (and_evaluates_as_conjunction (PS := first_seen) sample_heap ∅ 3 7 false true).
  - apply (reachable_run (PS := first_seen)), reachable_init.
  - reflexivity.
  - reflexivity.
  - reflexivity.
  - reflexivity.
Defined.

Lemma or_evaluates_as_disjunction_witness :
  ∃ h1 r, py_or (PS := first_seen) 3 (VRef 7) sample_heap = (h1, Ok (VRef r)) ∧
          is_filter h1 r ∧ (Filter__call__ h1 ∅ r).2 = Ok (false || true).
Proof.
  apply (or_evaluates_as_disjunction (PS := first_seen) sample_heap ∅ 3 7 false true).
  - apply (reachable_run (PS := first_seen)), reachable_init.
  - reflexivity.
  - reflexivity.
  - reflexivity.
  - reflexivity.
Defined.


Lemma Condition_call_allocates_each_time_witness :
  (∀ v args, Condition__call__ 2 (v :: args) sample_heap
             = (sample_heap, Raise (ValueError no_arguments))) ∧
  ∃ h1 h2 h3,
    Condition__call__ 2 [] sample_heap = (h1, Ok (VRef 14)) ∧
    Condition__call__ 2 [] h1 = (h2, Ok (VRef 15)) ∧
    Filter__call__ h2 ∅ 14 = ([14], const_false ∅) ∧
    Filter__call__ h2 ∅ 15 = ([15], const_false ∅) ∧
    py_and (PS := first_seen) 14 (VRef 15) h2 = (h3, Ok (VRef 16)) ∧
    body_of h3 16 = Some (B_AndList [14; 15]).
Proof.
  apply (Condition_call_allocates_each_time (PS := first_seen)
           sample_heap 2 const_false ∅).
  reflexivity.
Defined.

Lemma and_is_cached_per_direction_witness :
  ∃ h1 h2,
    py_and (PS := first_seen) 3 (VRef 7) sample_heap = (h1, Ok (VRef 14)) ∧
    py_and (PS := first_seen) 7 (VRef 3) h1 = (h2, Ok (VRef 15)) ∧
    body_of h2 14 = Some (B_AndList [3; 7]) ∧
    body_of h2 15 = Some (B_AndList [7; 3]).
Proof.
  apply (and_is_cached_per_direction (PS := first_seen) sample_heap 3 7);
    [reflexivity | reflexivity | lia | reflexivity | reflexivity
    | reflexivity | reflexivity].
Defined.

Lemma and_order_follows_the_set_witness :
  ∃ h1 r fs,
    py_and (PS := first_seen) 3 (VRef 5) sample_heap = (h1, Ok (VRef r)) ∧
    body_of h1 r = Some (B_AndList fs) ∧
    ((fs = [3; 5] ∧ Filter__call__ h1 ∅ r = ([3], Ok false)) ∨
     (fs = [5; 3] ∧ Filter__call__ h1 ∅ r = ([5], Raise (HostError "boom")))).
Proof.
  apply (and_order_follows_the_set (PS := first_seen) sample_heap ∅ 3 5
           const_false raising (HostError "boom")).
  - apply (reachable_run (PS := first_seen)), reachable_init.
  - reflexivity.
  - reflexivity.
  - lia.
  - reflexivity.
  - reflexivity.
Defined.

(** Both orders occur: the same program, run with the two iteration
    orders, gives [False] with one and the exception with the other. *)
Example and_order_both_occur :
  Filter__call__ (run (PS := first_seen) sample_ops []) ∅ 8 = ([3], Ok false) ∧
  Filter__call__ (run (PS := last_seen) sample_ops []) ∅ 8
    = ([5], Raise (HostError "boom")).
Proof. split; by vm_compute. Qed.

Lemma create_deduplicates_witness :
  _AndList_create (PS := first_seen) [] sample_heap
    = (sample_heap ++ [Filter__init__ B_Always], 14) ∧
  _AndList_create (PS := first_seen) [3; 3; 3] sample_heap = (sample_heap, 3) ∧
  ∃ fs, NoDup fs ∧ (∀ z, z ∈ fs ↔ z ∈ [3; 7; 3; 5; 7]) ∧
    _AndList_create (PS := first_seen) [3; 7; 3; 5; 7] sample_heap
      = (sample_heap ++ [Filter__init__ (B_AndList fs)], 14).
Proof.
  split; [|split].
  - apply (create_deduplicates (PS := first_seen) sample_heap []). reflexivity.
  - apply (create_deduplicates (PS := first_seen) sample_heap [3; 3; 3]).
    + by left.
    + intros y Hy. rewrite !elem_of_cons, elem_of_nil in Hy. tauto.
  - destruct (proj2 (proj2 (create_deduplicates (PS := first_seen)
                               sample_heap [3; 7; 3; 5; 7])) 3 7)
      as (fs & Hnd & Hel & Hand & _).
    + by left.
    + right. by left.
    + lia.
    + exists fs. split; [exact Hnd|]. split; [exact Hel | exact Hand].
Defined.

Lemma create_evaluates_as_all_and_any_witness :
  (∃ h1 r, _AndList_create (PS := first_seen) [7; 3; 7] sample_heap = (h1, r) ∧
     is_filter h1 r ∧
     ((Filter__call__ h1 ∅ r).2 = Ok true ↔
      Forall (λ c, (Filter__call__ sample_heap ∅ c).2 = Ok true) [7; 3; 7])) ∧
  (∃ h1 r, _OrList_create (PS := first_seen) [7; 3; 7] sample_heap = (h1, r) ∧
     is_filter h1 r ∧
     ((Filter__call__ h1 ∅ r).2 = Ok true ↔
      Exists (λ c, (Filter__call__ sample_heap ∅ c).2 = Ok true) [7; 3; 7])).
Proof.
  assert (reachable (PS := first_seen) sample_heap) as Hr
    by apply (reachable_run (PS := first_seen)), reachable_init.
  assert (Forall (is_filter sample_heap) [7; 3; 7]) as Hl
    by (repeat constructor).
  destruct (create_evaluates_as_all_and_any (PS := first_seen)
              sample_heap ∅ [7; 3; 7] Hr Hl) as [Hand Hor].
  split; [exact Hand|]. apply Hor.
  repeat constructor; eexists; reflexivity.
Defined.

(** * Printing *)

Section ReprFacts.

Context {PS : PySet}.
Variable object_repr : addr → string.
Variable func_repr : callback → string.










End ReprFacts.


(** The two filters of the witness differ all the same: with [a] false
    and [b], [c] true the first is false and the second true. *)
Example grouping_matters :
  Filter__call__ grouping_heap ∅ 7 = ([1], Ok false) ∧
  Filter__call__ grouping_heap ∅ 9 = ([1; 5], Ok true).
Proof. split; by vm_compute. Qed.
